(** * Notes-Generator: the content-to-document pipeline of [cmq.py]

    A shallow embedding of the slide-text extractor, the prompt composer and
    the PDF renderer of [cmq.py], with the properties the specification
    states about them.

    Python [str] values are sequences of Unicode code points; they are
    modelled as lists of code points ([N]).  The libraries the program
    calls but does not contain (python-pptx, ReportLab, the Gemini client)
    appear as data ([Presentation]) or as an explicit record of oracles
    ([ReportLab]). *)

From Stdlib Require Import String Ascii List NArith Bool Arith Lia.
From Stdlib Require Import Numbers.DecimalString Sorting.Sorted.
Import ListNotations.

(* ================================================================== *)
(** * Python strings *)
(* ================================================================== *)

Definition char := N.
Definition str := list char.

Definition chr_eqb (a b : char) : bool := N.eqb a b.

Fixpoint str_eqb (a b : str) : bool :=
  match a, b with
  | [], [] => true
  | x :: a', y :: b' => chr_eqb x y && str_eqb a' b'
  | _, _ => false
  end.

(** Literals are written as Rocq strings, read as UTF-8. *)
Fixpoint utf8_decode (bs : list N) : str :=
  match bs with
  | [] => []
  | b0 :: r0 =>
    if (b0 <? 128)%N then b0 :: utf8_decode r0
    else if (b0 <? 224)%N then
      match r0 with
      | b1 :: r1 => ((b0 - 192) * 64 + (b1 - 128))%N :: utf8_decode r1
      | [] => []
      end
    else if (b0 <? 240)%N then
      match r0 with
      | b1 :: b2 :: r2 =>
        ((b0 - 224) * 4096 + (b1 - 128) * 64 + (b2 - 128))%N :: utf8_decode r2
      | _ => []
      end
    else
      match r0 with
      | b1 :: b2 :: b3 :: r3 =>
        ((b0 - 240) * 262144 + (b1 - 128) * 4096 + (b2 - 128) * 64 + (b3 - 128))%N
          :: utf8_decode r3
      | _ => []
      end
  end.

Definition u (s : string) : str :=
  utf8_decode (map N_of_ascii (list_ascii_of_string s)).

(** Named characters. *)
Definition c_nl : char := 10%N.      (* \n *)
Definition c_space : char := 32%N.
Definition c_dquote : char := 34%N.  (* the double quote *)
Definition c_hash : char := 35%N.    (* # *)
Definition c_amp : char := 38%N.     (* & *)
Definition c_star : char := 42%N.    (* * *)
Definition c_dot : char := 46%N.     (* . *)
Definition c_lt : char := 60%N.      (* < *)
Definition c_gt : char := 62%N.      (* > *)

Definition in_ranges (tbl : list (N * N)) (c : char) : bool :=
  existsb (fun r => (fst r <=? c)%N && (c <=? snd r)%N) tbl.

(** [str.isspace] for one code point (Unicode 14, the table of CPython 3.11). *)
Definition isspace_ranges : list (N * N) :=
  [ (9, 13); (28, 32); (133, 133); (160, 160); (5760, 5760); (8192, 8202);
    (8232, 8233); (8239, 8239); (8287, 8287); (12288, 12288) ]%N.

Definition isspace (c : char) : bool := in_ranges isspace_ranges c.

(** [str.isdigit] for one code point: Numeric_Type Decimal or Digit. *)
Definition isdigit_ranges : list (N * N) :=
  [ (48, 57); (178, 179); (185, 185); (1632, 1641); (1776, 1785);
    (1984, 1993); (2406, 2415); (2534, 2543); (2662, 2671); (2790, 2799);
    (2918, 2927); (3046, 3055); (3174, 3183); (3302, 3311); (3430, 3439);
    (3558, 3567); (3664, 3673); (3792, 3801); (3872, 3881); (4160, 4169);
    (4240, 4249); (4969, 4977); (6112, 6121); (6160, 6169); (6470, 6479);
    (6608, 6618); (6784, 6793); (6800, 6809); (6992, 7001); (7088, 7097);
    (7232, 7241); (7248, 7257); (8304, 8304); (8308, 8313); (8320, 8329);
    (9312, 9320); (9332, 9340); (9352, 9360); (9450, 9450); (9461, 9469);
    (9471, 9471); (10102, 10110); (10112, 10120); (10122, 10130);
    (42528, 42537); (43216, 43225); (43264, 43273); (43472, 43481);
    (43504, 43513); (43600, 43609); (44016, 44025); (65296, 65305);
    (66720, 66729); (68160, 68163); (68912, 68921); (69216, 69224);
    (69714, 69722); (69734, 69743); (69872, 69881); (69942, 69951);
    (70096, 70105); (70384, 70393); (70736, 70745); (70864, 70873);
    (71248, 71257); (71360, 71369); (71472, 71481); (71904, 71913);
    (72016, 72025); (72784, 72793); (73040, 73049); (73120, 73129);
    (92768, 92777); (92864, 92873); (93008, 93017); (120782, 120831);
    (123200, 123209); (123632, 123641); (125264, 125273); (127232, 127242);
    (130032, 130041) ]%N.

Definition isdigit (c : char) : bool := in_ranges isdigit_ranges c.

(** [str.lower], code point by code point.  ASCII capitals are folded; of the
    code points above U+007F only U+0130 and U+212A have a lower-case form
    with an ASCII letter in it, and they are written out.  Every other code
    point above U+007F is kept: its lower-case form has no ASCII character,
    so a search for an ASCII needle in the result is not affected. *)
Definition lower_char (c : char) : str :=
  if (65 <=? c)%N && (c <=? 90)%N then [(c + 32)%N]
  else if (c =? 304)%N then [105%N; 775%N]
  else if (c =? 8490)%N then [107%N]
  else [c].

Definition lower (s : str) : str := flat_map lower_char s.

(** [s.lstrip()], [s.rstrip()], [s.strip()]. *)
Fixpoint lstrip (s : str) : str :=
  match s with
  | [] => []
  | c :: r => if isspace c then lstrip r else s
  end.

Fixpoint rstrip (s : str) : str :=
  match s with
  | [] => []
  | c :: r =>
    match rstrip r with
    | [] => if isspace c then [] else [c]
    | r' => c :: r'
    end
  end.

Definition strip (s : str) : str := rstrip (lstrip s).

(** Truth value of a string: non-empty. *)
Definition truthy (s : str) : bool :=
  match s with [] => false | _ => true end.

(** [s.startswith(p)]. *)
Fixpoint startswith (s p : str) : bool :=
  match p, s with
  | [], _ => true
  | x :: p', y :: s' => chr_eqb x y && startswith s' p'
  | _ :: _, [] => false
  end.

(** [needle in s]. *)
Fixpoint contains (needle s : str) : bool :=
  startswith s needle ||
  match s with
  | [] => false
  | _ :: r => contains needle r
  end.

(** [sep.join(parts)]. *)
Fixpoint join (sep : str) (parts : list str) : str :=
  match parts with
  | [] => []
  | [p] => p
  | p :: rest => p ++ sep ++ join sep rest
  end.

(** [s.replace(old, new)] for a non-empty [old]: occurrences are found from
    the left and do not overlap.  [skip] counts the characters of an
    occurrence that are still to be passed over. *)
Fixpoint replace_go (old new : str) (skip : nat) (s : str) : str :=
  match s with
  | [] => []
  | c :: r =>
    match skip with
    | S k => replace_go old new k r
    | O =>
      if startswith s old then new ++ replace_go old new (length old - 1) r
      else c :: replace_go old new 0 r
    end
  end.

Definition replace (old new s : str) : str := replace_go old new 0 s.

(** [s.split(sep)] for a non-empty [sep]; [cur] is the piece being read,
    reversed. *)
Fixpoint split_go (sep : str) (skip : nat) (cur : str) (s : str) : list str :=
  match s with
  | [] => [rev cur]
  | c :: r =>
    match skip with
    | S k => split_go sep k cur r
    | O =>
      if startswith s sep then rev cur :: split_go sep (length sep - 1) [] r
      else split_go sep 0 (c :: cur) r
    end
  end.

Definition split (sep s : str) : list str := split_go sep 0 [] s.

(** [str(n)] for a non-negative integer. *)
Definition str_of_nat (n : nat) : str :=
  u (NilEmpty.string_of_uint (Nat.to_uint n)).

(** [xml.sax.saxutils.escape(data)]: the ampersand first, then [>], then [<]. *)
Definition escape (data : str) : str :=
  replace [c_lt] (u "&lt;")
    (replace [c_gt] (u "&gt;")
      (replace [c_amp] (u "&amp;") data)).

(* ================================================================== *)
(** * Results and exceptions *)
(* ================================================================== *)

(** [HTTPException(status_code, detail)] is the only exception the
    functions of [cmq.py] raise themselves; [OtherError] stands for an
    exception of a library that passes through uncaught. *)
Inductive exn : Type :=
| HTTPException (status_code : nat) (detail : str)
| OtherError (message : str).

Inductive result (A : Type) : Type :=
| Ok (a : A)
| Raise (e : exn).
Arguments Ok {A} a.
Arguments Raise {A} e.

Definition bind {A B : Type} (r : result A) (k : A -> result B) : result B :=
  match r with
  | Ok a => k a
  | Raise e => Raise e
  end.

Notation "x <- r ;; k" := (bind r (fun x => k))
  (at level 61, r at next level, right associativity).

Definition exn_message (e : exn) : str :=
  match e with
  | HTTPException code detail => str_of_nat code ++ u ": " ++ detail
  | OtherError m => m
  end.

(* ================================================================== *)
(** * The material-type catalog ([MATERIAL_TYPES]) *)
(* ================================================================== *)

(** A Python dict with string keys, as an association list in insertion
    order; [dict_get] is the lookup behind [d.get(k, default)]. *)
Definition dict (V : Type) := list (str * V).

Fixpoint dict_get {V : Type} (d : dict V) (k : str) : option V :=
  match d with
  | [] => None
  | (k', v) :: rest => if str_eqb k' k then Some v else dict_get rest k
  end.

Definition get_or {V : Type} (d : dict V) (k : str) (default : V) : V :=
  match dict_get d k with
  | Some v => v
  | None => default
  end.

Record material_type_spec := {
  name : str;
  description : str;
  prompt_modifier : str
}.

Definition comprehensive : material_type_spec := {|
  name := u "Comprehensive Study Notes";
  description := u "Detailed explanations covering all aspects";
  prompt_modifier := u "Create extremely detailed and comprehensive notes with thorough explanations, multiple examples, and deep conceptual understanding."
|}.

Definition MATERIAL_TYPES : dict material_type_spec :=
  [ (u "comprehensive", comprehensive);
    (u "summarized", {|
       name := u "Summarized Key Points";
       description := u "Concise summary focusing on essential concepts";
       prompt_modifier := u "Create a concise summary that captures only the most essential information and key takeaways. Be brief but complete." |});
    (u "pointwise", {|
       name := u "Point-wise Structure";
       description := u "Bullet points for easy memorization";
       prompt_modifier := u "Structure everything in clear bullet points and numbered lists. Make it easy to scan and memorize. Use short, impactful statements." |});
    (u "prerequisite", {|
       name := u "Prerequisite-Focused";
       description := u "Emphasizes foundational concepts";
       prompt_modifier := u "Focus heavily on prerequisite knowledge and foundational concepts. Build from basics to advanced. Include background information that students might be missing." |});
    (u "problem_solving", {|
       name := u "Problem-Solving Oriented";
       description := u "Focus on practical applications and exercises";
       prompt_modifier := u "Emphasize problem-solving techniques, worked examples, practice problems, and step-by-step solutions. Include common mistakes to avoid." |});
    (u "visual_learning", {|
       name := u "Visual Learning Guide";
       description := u "Structured for visual learners with diagrams descriptions";
       prompt_modifier := u "Structure content for visual learners. Describe concepts that would benefit from diagrams, flowcharts, and mind maps. Use analogies and visual metaphors." |});
    (u "exam_focused", {|
       name := u "Exam Preparation";
       description := u "Tailored for test preparation";
       prompt_modifier := u "Focus on exam-relevant content, important formulas, frequently asked questions, and exam tips. Highlight what's most likely to appear in tests." |}) ].

(* ================================================================== *)
(** * The structural extractor ([extract_text_with_structure]) *)
(* ================================================================== *)

(** What the extractor reads of a python-pptx presentation.  A shape is
    identified by [shape_id] (python-pptx compares shapes by the identity of
    their XML element); [paragraphs] holds [paragraph.text] for each
    paragraph of [shape.text_frame], and [shape.text] is those texts joined
    by a newline.  A shape with a text frame is an auto shape and has the
    attribute [text], so [hasattr(shape, 'text')] holds wherever it is
    evaluated. *)
Record Shape := {
  shape_id : nat;
  has_text_frame : bool;
  paragraphs : list str
}.

Record Slide := {
  shapes : list Shape;
  shapes_title : option nat   (* slide.shapes.title: the title placeholder *)
}.

Definition Presentation := list Slide.

Definition shape_text (sh : Shape) : str := join [c_nl] (paragraphs sh).

(** [shape == slide.shapes.title] *)
Definition is_title_placeholder (sl : Slide) (sh : Shape) : bool :=
  match shapes_title sl with
  | Some t => Nat.eqb (shape_id sh) t
  | None => false
  end.

Record slide_text := {
  slide_number : nat;
  title : str;
  content : list str
}.

(** The test of line 107. *)
Definition is_title (slide_num : nat) (sl : Slide) (sh : Shape) : bool :=
  is_title_placeholder sl sh || Nat.eqb slide_num 1.

(** The lines a non-title shape appends to [content]. *)
Definition shape_lines (sh : Shape) : list str :=
  map strip (filter (fun p => truthy (strip p)) (paragraphs sh)).

(** One turn of [for shape in slide.shapes]. *)
Definition visit_shape (slide_num : nat) (sl : Slide)
    (st : slide_text) (sh : Shape) : slide_text :=
  if negb (has_text_frame sh) then st
  else if is_title slide_num sl sh then
    {| slide_number := slide_number st;
       title := shape_text sh;
       content := content st |}
  else
    {| slide_number := slide_number st;
       title := title st;
       content := content st ++ shape_lines sh |}.

Definition extract_slide (slide_num : nat) (sl : Slide) : slide_text :=
  fold_left (visit_shape slide_num sl) (shapes sl)
    {| slide_number := slide_num; title := []; content := [] |}.

(** [if slide_text["title"] or slide_text["content"]] *)
Definition retained (st : slide_text) : bool :=
  truthy (title st) || match content st with [] => false | _ => true end.

(** [enumerate(presentation.slides, 1)] with the loop body. *)
Fixpoint extract_slides (slide_num : nat) (slides : list Slide) : list slide_text :=
  match slides with
  | [] => []
  | sl :: rest =>
    let st := extract_slide slide_num sl in
    if retained st then st :: extract_slides (S slide_num) rest
    else extract_slides (S slide_num) rest
  end.

Definition slide_entry (s : slide_text) : str :=
  u "Slide " ++ str_of_nat (slide_number s) ++ u ": " ++ title s ++ [c_nl]
    ++ join [c_nl] (content s).

Record ppt_content := {
  total_slides : nat;
  slides : list slide_text;
  full_text : str
}.

Definition extract (presentation : Presentation) : ppt_content :=
  let slides_content := extract_slides 1 presentation in
  {| total_slides := length presentation;
     slides := slides_content;
     full_text := join [c_nl] (map slide_entry slides_content) |}.

(** [Presentation(file_stream)] either raises (with the message [str(e)]) or
    gives the deck; any exception becomes an [HTTPException] 500. *)
Definition extract_text_with_structure (parsed : str + Presentation)
  : result ppt_content :=
  match parsed with
  | inl msg => Raise (HTTPException 500 (u "Failed to process PowerPoint: " ++ msg))
  | inr presentation => Ok (extract presentation)
  end.

(* ================================================================== *)
(** * The prompt composer ([generate_targeted_study_material]) *)
(* ================================================================== *)

(** A line of a template: its text and the newline that ends it. *)
Definition ln (s : string) : str := u s ++ [c_nl].

(** [f'"{spot}"'] *)
Definition quote_spot (spot : str) : str := [c_dquote] ++ spot ++ [c_dquote].

(** [', '.join([f'"{spot}"' for spot in weak_spots if spot.strip()])] *)
Definition listed_spots (weak_spots : list str) : str :=
  join (u ", ")
    (map quote_spot (filter (fun spot => truthy (strip spot)) weak_spots)).

Definition weak_spots_heading : str :=
  [c_nl]
  ++ ln "        CRITICAL STUDENT WEAK SPOTS:"
  ++ ln "        The student particularly struggles with the following concepts:"
  ++ u "        ".

Definition weak_spots_directives : list str :=
  [ ln "        1. Provide EXTRA detailed explanations for these topics";
    ln "        2. Include multiple examples for each weak spot";
    ln "        3. Break down complex concepts into simpler steps";
    ln "        4. Explain prerequisites needed to understand these topics";
    ln "        5. Include common misconceptions and clarifications";
    ln "        6. Add practice questions specifically targeting these areas";
    ln "        7. Use analogies and real-world applications" ].

Definition weak_spots_instructions : str :=
  [c_nl]
  ++ ln "        "
  ++ ln "        IMPORTANT INSTRUCTIONS FOR WEAK SPOTS:"
  ++ concat weak_spots_directives
  ++ u "        ".

(** The f-string of lines 148-161. *)
Definition weak_spots_block (weak_spots : list str) : str :=
  weak_spots_heading ++ listed_spots weak_spots ++ weak_spots_instructions.

(** [any(weak_spots)]: some element is a non-empty string. *)
Definition any (l : list str) : bool := existsb truthy l.

(** Lines 146-161: [if weak_spots and any(weak_spots)]. *)
Definition weak_spots_text (weak_spots : list str) : str :=
  if match weak_spots with [] => false | _ => true end && any weak_spots
  then weak_spots_block weak_spots
  else [].

Definition difficulty_instructions : dict str :=
  [ (u "beginner", u "Use simple language, avoid jargon, explain everything from basics.");
    (u "intermediate", u "Balance between foundational concepts and advanced topics.");
    (u "advanced", u "Include complex concepts, theoretical depth, and advanced applications.") ].

(** Line 143. *)
Definition material_config (material_type : str) : material_type_spec :=
  get_or MATERIAL_TYPES material_type comprehensive.

(** The prompt f-string (lines 170-206) in four pieces: [prompt_head] runs
    up to the first insertion of [weak_spots_text], [prompt_middle] from
    there to the blank line after the formatting requirements, and
    [length_restrictions] is the rest, with the second insertion between
    [length_restrictions_lead] and [prompt_tail]. *)
Definition prompt_head (config : material_type_spec) (difficulty_level : str) : str :=
  [c_nl]
  ++ ln "        You are an expert educational content creator. Generate high-quality study material based on the PowerPoint content provided."
  ++ [c_nl]
  ++ u "        MATERIAL TYPE: " ++ name config ++ [c_nl]
  ++ u "        STYLE INSTRUCTION: " ++ prompt_modifier config ++ [c_nl]
  ++ [c_nl]
  ++ u "        DIFFICULTY LEVEL: " ++ difficulty_level ++ [c_nl]
  ++ u "        " ++ get_or difficulty_instructions difficulty_level [] ++ [c_nl]
  ++ [c_nl]
  ++ u "        ".

Definition formatting_requirements : str :=
  ln "        FORMATTING REQUIREMENTS:"
  ++ ln "        1. Use clear hierarchical structure with headers"
  ++ ln "        2. Include relevant examples and explanations"
  ++ ln "        3. For weak spots, provide extra detail and clarity"
  ++ ln "        4. Use formatting markers: **bold** for emphasis, *italic* for terms"
  ++ ln "        5. Number important points and use bullet points for lists"
  ++ ln "        6. Include a summary section at the end"
  ++ u "        7. Add " ++ [c_dquote] ++ u "Key Takeaways" ++ [c_dquote]
  ++ ln " for each major topic"
  ++ ln "        8. If relevant, include formulas, definitions, and important dates".

Definition length_restrictions_lead : str :=
  ln "        OUTPUT LENGTH RESTRICTIONS:"
  ++ ln "        - The response must fit within a maximum of 2 pages in a standard PDF (≈ 600–800 words total)."
  ++ ln "        - Be concise and avoid unnecessary repetition."
  ++ ln "        - Prioritize clarity and weak spot coverage over breadth."
  ++ u "        - Do not expand on all content; only cover ".

Definition prompt_middle (additional_instructions : str) (ppt : ppt_content) : str :=
  [c_nl]
  ++ [c_nl]
  ++ ln "        ADDITIONAL TUTOR INSTRUCTIONS:"
  ++ u "        "
  ++ (if truthy additional_instructions then additional_instructions
      else u "None provided") ++ [c_nl]
  ++ [c_nl]
  ++ ln "        POWERPOINT CONTENT:"
  ++ u "        Total Slides: " ++ str_of_nat (total_slides ppt) ++ [c_nl]
  ++ ln "        Content:"
  ++ u "        " ++ full_text ppt ++ [c_nl]
  ++ [c_nl]
  ++ formatting_requirements
  ++ [c_nl].

Definition prompt_tail : str :=
  ln " as specified."
  ++ [c_nl]
  ++ ln "        Remember: focus only on the weak spots, and compress explanations so the entire material fits within 2 PDF pages."
  ++ u "        ".

(** The length-constraint block with the topics it names. *)
Definition length_restrictions (topics : str) : str :=
  length_restrictions_lead ++ topics ++ prompt_tail.

Definition compose_prompt (ppt : ppt_content) (weak_spots : list str)
    (material_type difficulty_level additional_instructions : str) : str :=
  let config := material_config material_type in
  let wst := weak_spots_text weak_spots in
  prompt_head config difficulty_level
  ++ wst
  ++ prompt_middle additional_instructions ppt
  ++ length_restrictions wst.

(** The function itself: the key check, the prompt, one call of the model.
    [model prompt] is [inr text] for a response and [inl msg] for an
    exception with message [msg]. *)
Definition generate_targeted_study_material
    (GOOGLE_API_KEY : option str) (model : str -> str + str)
    (ppt : ppt_content) (weak_spots : list str)
    (material_type difficulty_level additional_instructions : str) : result str :=
  match GOOGLE_API_KEY with
  | None | Some [] => Raise (HTTPException 500 (u "Gemini API key not configured"))
  | Some _ =>
    match model (compose_prompt ppt weak_spots material_type difficulty_level
                   additional_instructions) with
    | inr text => Ok text
    | inl msg =>
      Raise (HTTPException 500 (u "Failed to generate study material: " ++ msg))
    end
  end.

(* ================================================================== *)
(** * The renderer ([create_professional_pdf]) *)
(* ================================================================== *)

(** ** Inline markup ([convert_markdown_to_html]) *)

(** The longest prefix without an asterisk, and the rest: what the greedy
    character class of the two patterns takes. *)
Fixpoint span_not_star (s : str) : str * str :=
  match s with
  | [] => ([], [])
  | c :: r =>
    if chr_eqb c c_star then ([], s)
    else let (run, rest) := span_not_star r in (c :: run, rest)
  end.

(** The pattern of line 256 (two asterisks, a non-empty run without
    asterisks, two asterisks) matched at the start of [s]: group 1.  A run
    shorter than the longest one is followed by a character other than an
    asterisk, so backtracking finds no other match. *)
Definition match_bold (s : str) : option str :=
  match s with
  | c1 :: c2 :: t =>
    if chr_eqb c1 c_star && chr_eqb c2 c_star then
      match span_not_star t with
      | ((_ :: _) as run, a1 :: a2 :: _) =>
        if chr_eqb a1 c_star && chr_eqb a2 c_star then Some run else None
      | _ => None
      end
    else None
  | _ => None
  end.

(** The pattern of line 260 (an asterisk not preceded by one, a non-empty
    run without asterisks, an asterisk not followed by one) matched at the
    start of [s]; [prev] is the character before it in the searched string,
    if any. *)
Definition match_italic (prev : option char) (s : str) : option str :=
  match s with
  | c1 :: t =>
    if chr_eqb c1 c_star
       && negb (match prev with Some p => chr_eqb p c_star | None => false end)
    then
      match span_not_star t with
      | ((_ :: _) as run, a1 :: after) =>
        if chr_eqb a1 c_star
           && negb (match after with a2 :: _ => chr_eqb a2 c_star | [] => false end)
        then Some run else None
      | _ => None
      end
    else None
  | [] => None
  end.

(** [re.sub] of line 256: matches are taken from the left and do not
    overlap, each becomes its group 1 between the tags [<b>] and [</b>];
    [skip] counts the characters of the last match still to be passed
    over. *)
Fixpoint sub_bold_go (skip : nat) (s : str) : str :=
  match s with
  | [] => []
  | c :: r =>
    match skip with
    | S k => sub_bold_go k r
    | O =>
      match match_bold s with
      | Some run => u "<b>" ++ run ++ u "</b>" ++ sub_bold_go (length run + 3) r
      | None => c :: sub_bold_go 0 r
      end
    end
  end.

Definition sub_bold (text : str) : str := sub_bold_go 0 text.

(** [re.sub] of line 260, with the tags [<i>] and [</i>]. *)
Fixpoint sub_italic_go (skip : nat) (prev : option char) (s : str) : str :=
  match s with
  | [] => []
  | c :: r =>
    match skip with
    | S k => sub_italic_go k (Some c) r
    | O =>
      match match_italic prev s with
      | Some run =>
        u "<i>" ++ run ++ u "</i>" ++ sub_italic_go (length run + 1) (Some c) r
      | None => c :: sub_italic_go 0 (Some c) r
      end
    end
  end.

Definition sub_italic (text : str) : str := sub_italic_go 0 None text.

Definition convert_markdown_to_html (text : str) : str :=
  let text := escape text in
  let text := sub_bold text in
  let text := sub_italic text in
  text.

(** ** Flowables and the ReportLab boundary *)

Inductive style : Type :=
| CustomTitle | Metadata | SectionHeader | SubHeader
| NormalText | BulletText | ImportantNote | KeyPoint.

Inductive flowable : Type :=
| FParagraph (text : str) (st : style)
| FSpacer (width height : nat).

(** What a canvas is told to draw. *)
Inductive draw_op : Type :=
| DrawFlowable (f : flowable)
| SetFont (face : str) (size : nat)
| SetFillColor (color : str)
| DrawRightString (x y : nat) (text : str)
| DrawString (x y : nat) (text : str).

Definition page := list draw_op.
Definition pdf := list page.

(** ReportLab is not part of the repository; the renderer sees of it:
    - whether [Paragraph(text, style)] raises (the paragraph parser rejects
      the markup), with the message;
    - how the document template divides a story into pages, or that laying
      it out raises;
    - whether writing the finished file raises. *)
Record ReportLab := {
  paragraph_error : str -> style -> option str;
  layout : list flowable -> str + list (list flowable);
  write_error : option str
}.

Section Renderer.

Variable RL : ReportLab.

(** [Paragraph(text, style)] *)
Definition Paragraph (text : str) (st : style) : result flowable :=
  match paragraph_error RL text st with
  | Some msg => Raise (OtherError msg)
  | None => Ok (FParagraph text st)
  end.

Definition Spacer (width height : nat) : flowable := FSpacer width height.

(** ** Line classification *)

(** [s[i] == c], for an index within the string. *)
Definition index_is (s : str) (i : nat) (c : char) : bool :=
  match nth_error s i with
  | Some x => chr_eqb x c
  | None => false
  end.

(** [s[a:b]] *)
Definition slice (s : str) (a b : nat) : str := firstn (b - a) (skipn a s).

(** The block a line becomes; the names are the specification's. *)
Inductive line_class : Type :=
| IsBlank | IsSubHeader | IsSectionHeader | IsDocumentTitle
| IsKeyPoint | IsBulletItem | IsNumberedItem | IsParagraph.

(** Line 389. *)
Definition is_key_point (line : str) : bool :=
  contains (u "key takeaway") (lower line)
  || contains (u "important:") (lower line).

(** Line 394. *)
Definition is_bullet (line : str) : bool :=
  (startswith line (u "•") || startswith line (u "-") || startswith line (u "→"))
  || (startswith line (u "*") && (1 <? length line) && index_is line 1 c_space).

(** Line 403. *)
Definition is_numbered (line : str) : bool :=
  (2 <? length line)
  && match line with c :: _ => isdigit c | [] => false end
  && (index_is line 1 c_dot
      || ((3 <? length line) && str_eqb (slice line 1 3) (u ". "))).

(** The [if]/[elif] chain of lines 371-409 on a stripped line. *)
Definition classify (line : str) : line_class :=
  if negb (truthy line) then IsBlank
  else if startswith line (u "###") then IsSubHeader
  else if startswith line (u "##") then IsSectionHeader
  else if startswith line (u "#") then IsDocumentTitle
  else if is_key_point line then IsKeyPoint
  else if is_bullet line then IsBulletItem
  else if is_numbered line then IsNumberedItem
  else IsParagraph.

Definition header_text (line : str) : str :=
  convert_markdown_to_html (strip (replace [c_hash] [] line)).

Definition bullet_text (line : str) : str :=
  if startswith line (u "*") then convert_markdown_to_html (strip (skipn 2 line))
  else convert_markdown_to_html (strip (skipn 1 line)).

(** Line 416. *)
Definition clean_line (line : str) : str :=
  escape (replace [c_hash] [] (replace [c_star] [] line)).

(** The state of the loop over the lines: the story so far and [in_list]. *)
Definition loop_state : Type := list flowable * bool.

(** The body of [for line in lines] (lines 370-417). *)
Definition process_line (st : loop_state) (raw : str) : result loop_state :=
  let (story, in_list) := st in
  let line := strip raw in
  match classify line with
  | IsBlank =>
    if in_list then Ok (story ++ [Spacer 1 6], false) else Ok (story, in_list)
  | IsSubHeader =>
    p <- Paragraph (header_text line) SubHeader ;; Ok (story ++ [p], in_list)
  | IsSectionHeader =>
    p <- Paragraph (header_text line) SectionHeader ;; Ok (story ++ [p], in_list)
  | IsDocumentTitle =>
    p <- Paragraph (header_text line) CustomTitle ;; Ok (story ++ [p], in_list)
  | IsKeyPoint =>
    p <- Paragraph (convert_markdown_to_html line) KeyPoint ;;
    Ok (story ++ [p], in_list)
  | IsBulletItem =>
    p <- Paragraph (u "• " ++ bullet_text line) BulletText ;;
    Ok (story ++ [p], true)
  | IsNumberedItem =>
    p <- Paragraph (convert_markdown_to_html line) BulletText ;;
    Ok (story ++ [p], true)
  | IsParagraph =>
    match Paragraph (convert_markdown_to_html line) NormalText with
    | Ok p => Ok (story ++ [p], in_list)
    | Raise _ =>
      p <- Paragraph (clean_line line) NormalText ;; Ok (story ++ [p], in_list)
    end
  end.

Fixpoint process_lines (st : loop_state) (lines : list str) : result loop_state :=
  match lines with
  | [] => Ok st
  | line :: rest => st' <- process_line st line ;; process_lines st' rest
  end.

End Renderer.

(** ** The canvas ([NumberedCanvas]) *)

(** The attributes of a canvas that [dict(self.__dict__)] captures and
    [self.__dict__.update(state)] restores, as far as the page numbering
    uses them: the page number and the drawing code of the current page.
    ([_startPage] binds [_code] to a new list, so a captured state keeps the
    code of its own page.) *)
Record page_state := {
  _pageNumber : nat;
  _code : list draw_op
}.

(** A canvas.  The list [_saved_page_states] and the document [_doc] are
    objects that every captured state shares with the canvas, so they are
    kept beside the state and restoring a state leaves them as they are. *)
Record Canvas := {
  state : page_state;
  _saved_page_states : list page_state;
  _doc : list page
}.

(** [Canvas.__init__] followed by the assignment of line 224. *)
Definition new_canvas : Canvas :=
  {| state := {| _pageNumber := 1; _code := [] |};
     _saved_page_states := [];
     _doc := [] |}.

Definition draw (op : draw_op) (c : Canvas) : Canvas :=
  {| state := {| _pageNumber := _pageNumber (state c);
                 _code := _code (state c) ++ [op] |};
     _saved_page_states := _saved_page_states c;
     _doc := _doc c |}.

(** ReportLab's [Canvas._startPage]: the next page number, no code yet. *)
Definition _startPage (c : Canvas) : Canvas :=
  {| state := {| _pageNumber := S (_pageNumber (state c)); _code := [] |};
     _saved_page_states := _saved_page_states c;
     _doc := _doc c |}.

(** ReportLab's [Canvas.showPage]: the current page goes to the document. *)
Definition Canvas_showPage (c : Canvas) : Canvas :=
  _startPage
    {| state := state c;
       _saved_page_states := _saved_page_states c;
       _doc := _doc c ++ [_code (state c)] |}.

(** ReportLab's [Canvas.save]: [if len(self._code): self.showPage()], then
    the file is written.  [showPage] is the method of the object's class. *)
Definition Canvas_save (showPage : Canvas -> Canvas) (write : option str)
    (c : Canvas) : result pdf :=
  let c := match _code (state c) with [] => c | _ => showPage c end in
  match write with
  | Some msg => Raise (OtherError msg)
  | None => Ok (_doc c)
  end.

(** The document metadata, a dict with the keys ['date'], ['material_type'],
    ['weak_spots'] and ['difficulty'], each of which may be missing. *)
Record metadata := {
  md_date : option str;
  md_material_type : option str;
  md_weak_spots : option (list str);
  md_difficulty : option str
}.

Definition opt_or {A : Type} (o : option A) (default : A) : A :=
  match o with Some a => a | None => default end.

(** [NumberedCanvas.showPage] (lines 226-228). *)
Definition NumberedCanvas_showPage (c : Canvas) : Canvas :=
  _startPage
    {| state := state c;
       _saved_page_states := _saved_page_states c ++ [state c];
       _doc := _doc c |}.

Definition footer_text (page_number page_count : nat) : str :=
  u "Page " ++ str_of_nat page_number ++ u " of " ++ str_of_nat page_count.

Definition header_line (md : metadata) : str :=
  u "Study Material - " ++ opt_or (md_material_type md) (u "Notes").

(** [NumberedCanvas.draw_page_number] (lines 238-248); [letter] is 612 by
    792 points and [inch] 72 points. *)
Definition draw_page_number (md : metadata) (page_count : nat) (c : Canvas) : Canvas :=
  let c := draw (SetFont (u "Helvetica") 9) c in
  let c := draw (SetFillColor (u "grey")) c in
  let c := draw (DrawRightString 558 54
                   (footer_text (_pageNumber (state c)) page_count)) c in
  draw (DrawString 54 756 (header_line md)) c.

(** One turn of the loop of [NumberedCanvas.save] (lines 232-235). *)
Definition stamp_page (md : metadata) (num_pages : nat) (c : Canvas)
    (st : page_state) : Canvas :=
  let c := {| state := st;
              _saved_page_states := _saved_page_states c;
              _doc := _doc c |} in
  let c := draw_page_number md num_pages c in
  Canvas_showPage c.

(** [NumberedCanvas.save] (lines 230-236). *)
Definition NumberedCanvas_save (md : metadata) (write : option str)
    (c : Canvas) : result pdf :=
  let num_pages := length (_saved_page_states c) in
  let c := fold_left (stamp_page md num_pages) (_saved_page_states c) c in
  Canvas_save NumberedCanvas_showPage write c.

(** A canvas class, as [doc.build] uses it. *)
Record canvasmaker := {
  showPage : Canvas -> Canvas;
  save : option str -> Canvas -> result pdf
}.

Definition PlainCanvas : canvasmaker :=
  {| showPage := Canvas_showPage; save := Canvas_save Canvas_showPage |}.

Definition NumberedCanvas (md : metadata) : canvasmaker :=
  {| showPage := NumberedCanvas_showPage; save := NumberedCanvas_save md |}.

Section Build.

Variable RL : ReportLab.

(** The document template draws the flowables of a page and ends the page
    with [showPage]. *)
Definition draw_page (cm : canvasmaker) (c : Canvas) (fs : list flowable) : Canvas :=
  showPage cm (fold_left (fun c f => draw (DrawFlowable f) c) fs c).

(** [doc.build(story, canvasmaker=cm)]: the story is laid out into pages,
    each page is drawn, the canvas is saved. *)
Definition doc_build (cm : canvasmaker) (story : list flowable) : result pdf :=
  match layout RL story with
  | inl msg => Raise (OtherError msg)
  | inr pages => save cm (write_error RL) (fold_left (draw_page cm) pages new_canvas)
  end.

(** ** The story *)

(** Lines 358-361; [today] is [datetime.now().strftime('%B %d, %Y')]. *)
Definition meta_text (today : str) (md : metadata) : str :=
  u "Generated on " ++ opt_or (md_date md) today ++ u "<br/>"
  ++ u "Material Type: " ++ opt_or (md_material_type md) (u "Study Notes") ++ u "<br/>"
  ++ match md_weak_spots md with
     | Some ((_ :: _) as ws) => u "Focus Areas: " ++ join (u ", ") (firstn 3 ws)
     | _ => []
     end.

(** Lines 352-417: the title, the metadata, a spacer, then the lines. *)
Definition build_story (today : str) (content : str) (md : metadata)
  : result (list flowable) :=
  t <- Paragraph RL (u "Personalized Study Material") CustomTitle ;;
  m <- Paragraph RL (meta_text today md) Metadata ;;
  st <- process_lines RL ([t; m; Spacer 1 20], false) (split [c_nl] content) ;;
  Ok (fst st).

(** [re.sub(r'[*#]', '', content)] *)
Definition strip_markup (content : str) : str :=
  filter (fun c => negb (chr_eqb c c_star || chr_eqb c c_hash)) content.

(** The body of the loop of lines 431-437: a paragraph and a spacer for a
    chunk that is not blank; a chunk whose paragraph raises adds nothing. *)
Definition fallback_chunk (para : str) : list flowable :=
  if truthy (strip para) then
    match Paragraph RL (escape (strip para)) NormalText with
    | Ok p => [p; Spacer 1 12]
    | Raise _ => []
    end
  else [].

(** Lines 425-439. *)
Definition fallback_pdf (content : str) : result pdf :=
  t <- Paragraph RL (u "Personalized Study Material") CustomTitle ;;
  let story :=
    [t; Spacer 1 20]
    ++ flat_map fallback_chunk (split [c_nl; c_nl] (strip_markup content)) in
  doc_build PlainCanvas story.

(** [create_professional_pdf(content, metadata, output_path)]: what is
    written to [output_path], or the exception that leaves the function. *)
Definition create_professional_pdf (today : str) (content : str) (md : metadata)
  : result pdf :=
  story <- build_story today content md ;;
  match doc_build (NumberedCanvas md) story with
  | Ok doc => Ok doc
  | Raise _ => fallback_pdf content
  end.

End Build.

(* ================================================================== *)
(** * The endpoint ([generate_study_material_endpoint]) *)
(* ================================================================== *)

(** [s.endswith(p)] *)
Definition endswith (s p : str) : bool := startswith (rev s) (rev p).

(** Line 470. *)
Definition weak_spots_list (weak_spots : str) : list str :=
  if truthy weak_spots then
    map strip (filter (fun spot => truthy (strip spot)) (split (u ",") weak_spots))
  else [].

(** Lines 487-492. *)
Definition endpoint_metadata (today material_type : str)
    (weak_spots_list : list str) (difficulty_level : str) : metadata :=
  {| md_date := Some today;
     md_material_type :=
       Some match dict_get MATERIAL_TYPES material_type with
            | Some entry => name entry
            | None => u "Study Notes"
            end;
     md_weak_spots := Some weak_spots_list;
     md_difficulty := Some difficulty_level |}.

(** The endpoint, from the uploaded file to the document returned. *)
Definition generate_study_material_endpoint
    (RL : ReportLab) (GOOGLE_API_KEY : option str) (model : str -> str + str)
    (today : str)
    (filename : str) (parsed : str + Presentation)
    (weak_spots material_type difficulty_level additional_instructions : str)
  : result pdf :=
  if negb (endswith filename (u ".pptx")) then
    Raise (HTTPException 400 (u "Please upload a .pptx file"))
  else
    ppt <- extract_text_with_structure parsed ;;
    if negb (truthy (strip (full_text ppt))) then
      Raise (HTTPException 400 (u "PowerPoint appears to be empty"))
    else
      let spots := weak_spots_list weak_spots in
      match generate_targeted_study_material GOOGLE_API_KEY model ppt spots
              material_type difficulty_level additional_instructions with
      | Raise e => Raise (HTTPException 500 (u "Generation failed: " ++ exn_message e))
      | Ok generated_content =>
        let md := endpoint_metadata today material_type spots difficulty_level in
        match create_professional_pdf RL today generated_content md with
        | Raise e => Raise (HTTPException 500 (u "PDF creation failed: " ++ exn_message e))
        | Ok doc => Ok doc
        end
      end.

(* ================================================================== *)
(** * The analysis endpoint ([analyze_ppt]) *)
(* ================================================================== *)

(** The JSON object of lines 530-534. *)
Record ppt_analysis := {
  analysis_total_slides : nat;
  main_topics : list str;
  content_preview : str
}.

(** Lines 515-534: the file name is checked, the deck extracted (an
    exception of the extractor passes through), the titles that are not
    empty are collected and cut to ten, the text is cut to 500
    characters. *)
Definition analyze_ppt (filename : str) (parsed : str + Presentation)
  : result ppt_analysis :=
  if negb (endswith filename (u ".pptx")) then
    Raise (HTTPException 400 (u "Please upload a .pptx file"))
  else
    ppt <- extract_text_with_structure parsed ;;
    let topics :=
      map title (filter (fun slide => truthy (title slide)) (slides ppt)) in
    Ok {| analysis_total_slides := total_slides ppt;
          main_topics := firstn 10 topics;
          content_preview := firstn 500 (full_text ppt) |}.

(* ================================================================== *)
(** * Vocabulary of the statements *)
(* ================================================================== *)

(** What [escape] does to one character. *)
Definition escape_char (c : char) : str :=
  if chr_eqb c c_amp then u "&amp;"
  else if chr_eqb c c_gt then u "&gt;"
  else if chr_eqb c c_lt then u "&lt;"
  else [c].

(** What [replace] does to one character when [old] is the character [c]. *)
Definition subst_char (c : char) (new : str) (x : char) : str :=
  if chr_eqb c x then new else [x].


Definition starts_with_star (s : str) : bool :=
  match s with c :: _ => chr_eqb c c_star | [] => false end.

(** [s] has no asterisk; [s] has neither an asterisk nor a hash. *)
Definition star_free (s : str) : Prop := ~ In c_star s.
Definition markup_free (s : str) : Prop := ~ In c_star s /\ ~ In c_hash s.


(** The shapes the extractor looks at. *)
Definition text_shapes (sl : Slide) : list Shape :=
  filter has_text_frame (shapes sl).

(** Blank, as the specification words it: a paragraph is blank when
    nothing is left of it once trimmed, a slide when every paragraph of
    every shape with text is blank, a deck when every slide is. *)
Definition blank_paragraph (p : str) : bool := negb (truthy (strip p)).

Definition blank_slide (sl : Slide) : bool :=
  forallb (fun sh => forallb blank_paragraph (paragraphs sh)) (text_shapes sl).

Definition blank_deck (deck : Presentation) : bool := forallb blank_slide deck.

(** The title rule as the specification words it: on slide 1 only the
    first shape with text is a candidate, on every slide the title
    placeholder is one; the last candidate gives the title and every other
    shape with text gives content.  [seen] tells whether a shape with text
    came before. *)
Fixpoint spec_visit (slide_num : nat) (sl : Slide) (seen : bool)
    (st : slide_text) (shs : list Shape) : slide_text :=
  match shs with
  | [] => st
  | sh :: rest =>
    if negb (has_text_frame sh) then spec_visit slide_num sl seen st rest
    else if is_title_placeholder sl sh || (Nat.eqb slide_num 1 && negb seen) then
      spec_visit slide_num sl true
        {| slide_number := slide_number st;
           title := shape_text sh;
           content := content st |} rest
    else
      spec_visit slide_num sl true
        {| slide_number := slide_number st;
           title := title st;
           content := content st ++ shape_lines sh |} rest
  end.

Definition spec_extract_slide (slide_num : nat) (sl : Slide) : slide_text :=
  spec_visit slide_num sl false
    {| slide_number := slide_num; title := []; content := [] |} (shapes sl).

(** The pages a numbered canvas has saved after the template drew [pages],
    the first of them numbered [k]. *)
Fixpoint numbered_states (k : nat) (pages : list (list flowable)) : list page_state :=
  match pages with
  | [] => []
  | fs :: rest =>
    {| _pageNumber := k; _code := map DrawFlowable fs |}
      :: numbered_states (S k) rest
  end.

(** A saved page with its footer and header, as [save] emits it. *)
Definition stamped (md : metadata) (page_count : nat) (st : page_state) : page :=
  _code st
  ++ [ SetFont (u "Helvetica") 9;
       SetFillColor (u "grey");
       DrawRightString 558 54 (footer_text (_pageNumber st) page_count);
       DrawString 54 756 (header_line md) ].

Definition is_footer (op : draw_op) : bool :=
  match op with DrawRightString _ _ _ => true | _ => false end.

Definition paragraph_texts (story : list flowable) : list str :=
  flat_map (fun f => match f with FParagraph t _ => [t] | FSpacer _ _ => [] end) story.

(** The story of the fallback document (lines 425-437). *)
Definition fallback_story (RL : ReportLab) (content : str) : list flowable :=
  [FParagraph (u "Personalized Study Material") CustomTitle; FSpacer 1 20]
  ++ flat_map (fallback_chunk RL) (split [c_nl; c_nl] (strip_markup content)).

(** The text outside the tags: what stands from an opening angle bracket
    to the next closing one is dropped. *)
Fixpoint untag_go (inside : bool) (s : str) : str :=
  match s with
  | [] => []
  | c :: r =>
    if inside then untag_go (negb (chr_eqb c c_gt)) r
    else if chr_eqb c c_lt then untag_go true r
    else c :: untag_go false r
  end.

Definition untag (s : str) : str := untag_go false s.

Definition without_stars (s : str) : str :=
  filter (fun c => negb (chr_eqb c c_star)) s.

(** [s] has no angle bracket. *)
Definition no_angle (s : str) : Prop := ~ In c_lt s /\ ~ In c_gt s.

(** Text with bold spans: characters other than angle brackets, and spans
    of the tag [<b>], a run without angle bracket or asterisk, and the tag
    [</b>]. *)
Inductive bold_markup : str -> Prop :=
| bold_markup_nil : bold_markup []
| bold_markup_char (c : char) (s : str) :
    c <> c_lt -> c <> c_gt -> bold_markup s -> bold_markup (c :: s)
| bold_markup_span (run s : str) :
    no_angle run -> star_free run -> bold_markup s ->
    bold_markup (u "<b>" ++ run ++ u "</b>" ++ s).

(** Well-formed markup: text with bold spans, and italic spans of the tag
    [<i>], text with bold spans, and the tag [</i>].  No tag is left open
    and no two spans cross. *)
Inductive well_formed_markup : str -> Prop :=
| markup_nil : well_formed_markup []
| markup_char (c : char) (s : str) :
    c <> c_lt -> c <> c_gt -> well_formed_markup s -> well_formed_markup (c :: s)
| markup_bold (run s : str) :
    no_angle run -> star_free run -> well_formed_markup s ->
    well_formed_markup (u "<b>" ++ run ++ u "</b>" ++ s)
| markup_italic (body s : str) :
    bold_markup body -> well_formed_markup s ->
    well_formed_markup (u "<i>" ++ body ++ u "</i>" ++ s).

(** The lines of the generated text that are not blank. *)
Definition nonblank_lines (content : str) : list str :=
  filter (fun line => truthy (strip line)) (split [c_nl] content).

(** The four drawing operations [draw_page_number] adds to page number
    [page_number] of [page_count]. *)
Definition page_stamp (md : metadata) (page_number page_count : nat) : list draw_op :=
  [ SetFont (u "Helvetica") 9;
    SetFillColor (u "grey");
    DrawRightString 558 54 (footer_text page_number page_count);
    DrawString 54 756 (header_line md) ].

(** A weak-spot entry as the endpoint keeps it: trimmed, not empty, without
    a comma. *)
Definition clean_entry (spot : str) : Prop :=
  strip spot = spot /\ spot <> [] /\ ~ In 44%N spot.

(** The status code of an [HTTPException]; no code for another exception. *)
Definition http_status (e : exn) : option nat :=
  match e with
  | HTTPException code _ => Some code
  | OtherError _ => None
  end.

(** ** Test data *)

Definition text_box (id : nat) (ps : list str) : Shape :=
  {| shape_id := id; has_text_frame := true; paragraphs := ps |}.

(** A first slide with a title placeholder and two text boxes. *)
Definition intro_slide : Slide :=
  {| shapes := [text_box 0 [u "Intro"]; text_box 1 [u "Point A"]; text_box 2 [u "Point B"]];
     shapes_title := Some 0 |}.

(** A slide whose only text is white space in a text box. *)
Definition empty_slide : Slide :=
  {| shapes := [text_box 5 [u "  "; []]]; shapes_title := None |}.

(** A title slide: the title placeholder and a subtitle left empty. *)
Definition title_slide : Slide :=
  {| shapes := [text_box 0 [u "Intro"]; text_box 1 [[]]]; shapes_title := Some 0 |}.

(** A slide with a picture and no shape with text. *)
Definition picture_slide : Slide :=
  {| shapes := [ {| shape_id := 7; has_text_frame := false; paragraphs := [] |} ];
     shapes_title := None |}.

(** A slide whose title placeholder holds three spaces and whose text box
    holds a line of white space. *)
Definition white_slide : Slide :=
  {| shapes := [text_box 0 [u "   "]; text_box 1 [u "  "]]; shapes_title := Some 0 |}.

(** A deck without text: a picture, then white space only. *)
Definition white_deck : Presentation := [picture_slide; white_slide].

Definition no_metadata : metadata :=
  {| md_date := None; md_material_type := None;
     md_weak_spots := None; md_difficulty := None |}.

(** ReportLab accepting everything, one page for a story. *)
Definition RL_accepting : ReportLab :=
  {| paragraph_error := fun _ _ => None;
     layout := fun story => inr [story];
     write_error := None |}.


(** A forced failure of the paragraph constructor on every text that
    contains [bad]. *)
Definition RL_rejecting (bad : str) : ReportLab :=
  {| paragraph_error := fun text _ =>
       if contains bad text then Some (u "xml parser error") else None;
     layout := fun story => inr [story];
     write_error := None |}.

(** A forced layout failure on a story that has a metadata paragraph (the
    structured story has one, the fallback story has none). *)
Definition RL_layout_failing : ReportLab :=
  {| paragraph_error := fun _ _ => None;
     layout := fun story =>
       if existsb (fun f => match f with FParagraph _ Metadata => true | _ => false end) story
       then inl (u "LayoutError") else inr [story];
     write_error := None |}.

(** ReportLab that lays everything out and cannot write the file. *)
Definition RL_unwritable : ReportLab :=
  {| paragraph_error := fun _ _ => None;
     layout := fun story => inr [story];
     write_error := Some (u "Permission denied") |}.

Arguments u : simpl never.
Arguments ln : simpl never.

(* ================================================================== *)
(** * Facts about strings *)
(* ================================================================== *)

(** The string operations and the markup translation on small inputs. *)
Example u_bullet : u "•→" = [8226; 8594]%N.
Proof. reflexivity. Qed.
Example split_ex : split (u "--") (u "a---b--") = [u "a"; u "-b"; []].
Proof. reflexivity. Qed.
Example strip_ex : strip (u "  a b  ") = u "a b".
Proof. reflexivity. Qed.
Example escape_ex : escape (u "a<b&c>") = u "a&lt;b&amp;c&gt;".
Proof. reflexivity. Qed.
Example str_of_nat_ex : str_of_nat 120 = u "120" /\ str_of_nat 0 = u "0".
Proof. split; reflexivity. Qed.
Example convert_ex1 :
  convert_markdown_to_html (u "**bold** and *italic*") = u "<b>bold</b> and <i>italic</i>".
Proof. reflexivity. Qed.
Example convert_ex2 :
  convert_markdown_to_html (u "***x***") = u "<i><b>x</b></i>".
Proof. reflexivity. Qed.
Example convert_ex3 :
  convert_markdown_to_html (u "*a*b*c* **d* a<b") = u "<i>a</i>b<i>c</i> **d* a&lt;b".
Proof. reflexivity. Qed.

(** The string operations on small inputs. *)

Lemma chr_eqb_eq (a b : char) : chr_eqb a b = true <-> a = b.
Proof. apply N.eqb_eq. Qed.

Lemma chr_eqb_neq (a b : char) : chr_eqb a b = false <-> a <> b.
Proof. apply N.eqb_neq. Qed.

Lemma chr_eqb_refl (a : char) : chr_eqb a a = true.
Proof. apply N.eqb_refl. Qed.

Lemma str_eqb_eq (a b : str) : str_eqb a b = true <-> a = b.
Proof.
  revert b; induction a as [|x a IH]; intros [|y b]; simpl; split;
    try congruence; try reflexivity.
  - intros H. apply andb_true_iff in H as [Hx Hab].
    apply chr_eqb_eq in Hx. apply IH in Hab. congruence.
  - intros H. injection H as -> ->.
    rewrite chr_eqb_refl. simpl. now apply IH.
Qed.

Lemma truthy_true (s : str) : truthy s = true <-> s <> [].
Proof. destruct s; simpl; split; congruence. Qed.

Lemma truthy_false (s : str) : truthy s = false <-> s = [].
Proof. destruct s; simpl; split; congruence. Qed.

(** *** strip *)

Lemma lstrip_head (s : str) :
  lstrip s = [] \/ exists c r, lstrip s = c :: r /\ isspace c = false.
Proof.
  induction s as [|c r IH]; simpl; [now left|].
  destruct (isspace c) eqn:E; [exact IH|].
  right. now exists c, r.
Qed.

Lemma lstrip_fixed (c : char) (r : str) : isspace c = false -> lstrip (c :: r) = c :: r.
Proof. intros H. simpl. now rewrite H. Qed.

Lemma rstrip_head (c : char) (r : str) :
  isspace c = false -> exists r', rstrip (c :: r) = c :: r'.
Proof.
  intros H. simpl. destruct (rstrip r) as [|x r'].
  - rewrite H. now exists [].
  - now exists (x :: r').
Qed.

Lemma rstrip_idempotent (s : str) : rstrip (rstrip s) = rstrip s.
Proof.
  induction s as [|c r IH]; simpl; [reflexivity|].
  destruct (rstrip r) as [|x r'] eqn:E.
  - destruct (isspace c) eqn:Ec; simpl; [reflexivity|]. now rewrite Ec.
  - change (rstrip (c :: x :: r') = c :: x :: r').
    cbn [rstrip]. cbn [rstrip] in IH. now rewrite IH.
Qed.

Lemma strip_idempotent (s : str) : strip (strip s) = strip s.
Proof.
  unfold strip.
  destruct (lstrip_head s) as [E | (c & r & E & Hc)]; rewrite E.
  - reflexivity.
  - destruct (rstrip_head c r Hc) as [r' E'].
    rewrite E'. rewrite (lstrip_fixed c r' Hc). rewrite <- E'.
    apply rstrip_idempotent.
Qed.

Lemma strip_nil : strip [] = [].
Proof. reflexivity. Qed.

Lemma In_lstrip (c : char) (s : str) : In c (lstrip s) -> In c s.
Proof.
  induction s as [|x r IH]; simpl; [tauto|].
  destruct (isspace x); simpl; tauto.
Qed.

Lemma In_rstrip (c : char) (s : str) : In c (rstrip s) -> In c s.
Proof.
  induction s as [|x r IH]; simpl; [tauto|].
  destruct (rstrip r) as [|y r'].
  - destruct (isspace x); simpl; tauto.
  - intros [H | H]; [now left | right; apply IH, H].
Qed.

Lemma In_strip (c : char) (s : str) : In c (strip s) -> In c s.
Proof. intros H. apply In_lstrip, In_rstrip, H. Qed.

(** *** replace and escape *)

Lemma startswith_nil (s : str) : startswith s [] = true.
Proof. now destruct s. Qed.

Lemma startswith_cons (x y : char) (s p : str) :
  startswith (y :: s) (x :: p) = chr_eqb x y && startswith s p.
Proof. reflexivity. Qed.

Lemma replace_char (c : char) (new s : str) :
  replace [c] new s = flat_map (subst_char c new) s.
Proof.
  unfold replace. induction s as [|x r IH]; [reflexivity|].
  cbn [replace_go length Nat.sub flat_map]. unfold subst_char at 1.
  rewrite startswith_cons, startswith_nil, andb_true_r.
  destruct (chr_eqb c x); now rewrite IH.
Qed.

Lemma escape_one (c : char) :
  flat_map (subst_char c_lt (u "&lt;"))
    (flat_map (subst_char c_gt (u "&gt;")) (subst_char c_amp (u "&amp;") c))
  = escape_char c.
Proof.
  unfold escape_char.
  destruct (chr_eqb c c_amp) eqn:Ea.
  { apply chr_eqb_eq in Ea. subst c. reflexivity. }
  destruct (chr_eqb c c_gt) eqn:Eg.
  { apply chr_eqb_eq in Eg. subst c. reflexivity. }
  destruct (chr_eqb c c_lt) eqn:El.
  { apply chr_eqb_eq in El. subst c. reflexivity. }
  unfold subst_char at 3. unfold chr_eqb in *.
  rewrite N.eqb_sym, Ea. cbn [flat_map app].
  unfold subst_char at 2. unfold chr_eqb. rewrite N.eqb_sym, Eg. cbn [flat_map app].
  unfold subst_char, chr_eqb. now rewrite N.eqb_sym, El.
Qed.

(** [escape] rewrites each character on its own. *)
Lemma escape_flat_map (s : str) : escape s = flat_map escape_char s.
Proof.
  unfold escape. rewrite !replace_char.
  induction s as [|c r IH]; [reflexivity|].
  cbn [flat_map]. rewrite !flat_map_app, IH. f_equal. apply escape_one.
Qed.

Lemma In_escape_char (x c : char) :
  In x (escape_char c) -> x = c \/ In x (u "&amp;&gt;&lt;").
Proof.
  unfold escape_char.
  destruct (chr_eqb c c_amp); [|destruct (chr_eqb c c_gt); [|destruct (chr_eqb c c_lt)]].
  - vm_compute. tauto.
  - vm_compute. tauto.
  - vm_compute. tauto.
  - simpl. intros [H | []]. now left.
Qed.

Lemma In_escape (x : char) (s : str) :
  In x (escape s) -> In x s \/ In x (u "&amp;&gt;&lt;").
Proof.
  rewrite escape_flat_map. intros H. apply in_flat_map in H as (c & Hc & Hx).
  apply In_escape_char in Hx as [-> | Hx]; tauto.
Qed.

Lemma escape_markup_free (s : str) : markup_free s -> markup_free (escape s).
Proof.
  intros [Hs Hh]. split; intros H; apply In_escape in H as [H | H];
    try tauto; revert H; vm_compute; intuition discriminate.
Qed.

Lemma escape_star_free (s : str) : star_free s -> star_free (escape s).
Proof.
  intros Hs H. apply In_escape in H as [H | H]; [exact (Hs H)|].
  revert H; vm_compute; intuition discriminate.
Qed.

Lemma replace_char_delete (c : char) (s : str) :
  replace [c] [] s = filter (fun x => negb (chr_eqb c x)) s.
Proof.
  rewrite replace_char. induction s as [|x r IH]; [reflexivity|].
  simpl. unfold subst_char at 1. destruct (chr_eqb c x); simpl; now rewrite IH.
Qed.

Lemma filter_id {A : Type} (f : A -> bool) (l : list A) :
  (forall x, In x l -> f x = true) -> filter f l = l.
Proof.
  induction l as [|x l IH]; intros H; [reflexivity|].
  simpl. rewrite (H x (or_introl eq_refl)). f_equal. apply IH.
  intros y Hy. apply H. now right.
Qed.

Lemma replace_char_absent (c : char) (s : str) :
  ~ In c s -> replace [c] [] s = s.
Proof.
  intros H. rewrite replace_char_delete. apply filter_id.
  intros x Hx. apply negb_true_iff, chr_eqb_neq. intros ->. tauto.
Qed.

Lemma In_replace_delete (x c : char) (s : str) :
  In x (replace [c] [] s) -> In x s /\ x <> c.
Proof.
  rewrite replace_char_delete. intros H. apply filter_In in H as [H1 H2].
  split; [exact H1|]. apply negb_true_iff, chr_eqb_neq in H2. congruence.
Qed.

(** *** split *)



Lemma strip_markup_free (s : str) : markup_free (strip_markup s).
Proof.
  unfold strip_markup; split; intros H; apply filter_In in H as [_ H];
    now vm_compute in H.
Qed.

(* ================================================================== *)
(** * Facts about the inline markup *)
(* ================================================================== *)

Lemma star_free_cons (c : char) (s : str) :
  star_free (c :: s) <-> chr_eqb c c_star = false /\ star_free s.
Proof.
  unfold star_free. simpl. rewrite chr_eqb_neq. intuition congruence.
Qed.

Lemma star_free_app (a b : str) : star_free (a ++ b) <-> star_free a /\ star_free b.
Proof. unfold star_free. rewrite in_app_iff. tauto. Qed.

Lemma span_not_star_run (run rest : str) :
  star_free run -> span_not_star (run ++ c_star :: rest) = (run, c_star :: rest).
Proof.
  induction run as [|c r IH]; intros H; [reflexivity|].
  apply star_free_cons in H as [Hc Hr].
  cbn [app span_not_star]. now rewrite Hc, (IH Hr).
Qed.

Lemma match_bold_other (c : char) (r : str) :
  chr_eqb c c_star = false -> match_bold (c :: r) = None.
Proof. intros H. unfold match_bold. destruct r; [reflexivity|]. now rewrite H. Qed.

Lemma match_italic_other (prev : option char) (c : char) (r : str) :
  chr_eqb c c_star = false -> match_italic prev (c :: r) = None.
Proof. intros H. unfold match_italic. now rewrite H. Qed.

Lemma match_bold_span (run post : str) :
  run <> [] -> star_free run ->
  match_bold (c_star :: c_star :: run ++ c_star :: c_star :: post) = Some run.
Proof.
  intros Hne Hfree. unfold match_bold. rewrite chr_eqb_refl. cbn [andb].
  rewrite (span_not_star_run run (c_star :: post) Hfree).
  destruct run; [congruence|]. now rewrite chr_eqb_refl.
Qed.


Lemma sub_bold_go_cons (c : char) (r : str) :
  sub_bold_go 0 (c :: r)
  = match match_bold (c :: r) with
    | Some run => u "<b>" ++ run ++ u "</b>" ++ sub_bold_go (length run + 3) r
    | None => c :: sub_bold_go 0 r
    end.
Proof. reflexivity. Qed.

Lemma sub_italic_go_cons (prev : option char) (c : char) (r : str) :
  sub_italic_go 0 prev (c :: r)
  = match match_italic prev (c :: r) with
    | Some run =>
      u "<i>" ++ run ++ u "</i>" ++ sub_italic_go (length run + 1) (Some c) r
    | None => c :: sub_italic_go 0 (Some c) r
    end.
Proof. reflexivity. Qed.

Lemma sub_bold_go_skip (l rest : str) :
  sub_bold_go (length l) (l ++ rest) = sub_bold_go 0 rest.
Proof. induction l as [|c l IH]; [reflexivity|]. exact IH. Qed.

Lemma sub_italic_go_skip (l : str) :
  forall prev c rest,
    sub_italic_go (length l + 1) prev (l ++ c :: rest) = sub_italic_go 0 (Some c) rest.
Proof.
  induction l as [|x l IH]; intros prev c rest.
  - cbn [length Nat.add app sub_italic_go]. now destruct rest.
  - cbn [length Nat.add app sub_italic_go]. apply IH.
Qed.

(** Text before the first asterisk is copied. *)
Lemma sub_bold_go_prefix (pre rest : str) :
  star_free pre -> sub_bold_go 0 (pre ++ rest) = pre ++ sub_bold_go 0 rest.
Proof.
  induction pre as [|c r IH]; intros H; [reflexivity|].
  apply star_free_cons in H as [Hc Hr].
  cbn [app]. rewrite sub_bold_go_cons, (match_bold_other c _ Hc). now rewrite (IH Hr).
Qed.

Lemma sub_bold_star_free (s : str) : star_free s -> sub_bold s = s.
Proof.
  intros H. unfold sub_bold.
  rewrite <- (app_nil_r s) at 1. rewrite (sub_bold_go_prefix s [] H).
  apply app_nil_r.
Qed.

Lemma sub_italic_go_star_free (s : str) :
  forall prev, star_free s -> sub_italic_go 0 prev s = s.
Proof.
  induction s as [|c r IH]; intros prev H; [reflexivity|].
  apply star_free_cons in H as [Hc Hr].
  rewrite sub_italic_go_cons, (match_italic_other prev c r Hc). now rewrite (IH _ Hr).
Qed.

(** A bold span after text without asterisks. *)
Lemma sub_bold_span (pre run post : str) :
  star_free pre -> run <> [] -> star_free run ->
  sub_bold (pre ++ u "**" ++ run ++ u "**" ++ post)
  = pre ++ u "<b>" ++ run ++ u "</b>" ++ sub_bold post.
Proof.
  intros Hpre Hne Hfree. unfold sub_bold.
  rewrite (sub_bold_go_prefix pre _ Hpre). f_equal.
  change (u "**" ++ run ++ u "**" ++ post)
    with (c_star :: c_star :: run ++ c_star :: c_star :: post).
  rewrite sub_bold_go_cons, (match_bold_span run post Hne Hfree).
  assert (Hskip : sub_bold_go (length run + 3) (c_star :: run ++ c_star :: c_star :: post)
                  = sub_bold_go 0 post).
  { replace (c_star :: run ++ c_star :: c_star :: post)
      with ((c_star :: run ++ [c_star; c_star]) ++ post)
      by (cbn [app]; now rewrite <- app_assoc).
    replace (length run + 3) with (length (c_star :: run ++ [c_star; c_star]))
      by (cbn [length]; rewrite length_app; cbn [length]; lia).
    apply sub_bold_go_skip. }
  now rewrite Hskip.
Qed.


Lemma convert_star_free (s : str) :
  star_free s -> convert_markdown_to_html s = escape s.
Proof.
  intros H. unfold convert_markdown_to_html.
  pose proof (escape_star_free s H) as He.
  rewrite (sub_bold_star_free _ He). unfold sub_italic.
  now apply sub_italic_go_star_free.
Qed.



(* ================================================================== *)
(** * The inline markup (C6) *)
(* ================================================================== *)



(* ================================================================== *)
(** * The prompt composer (C1, C4, C9) *)
(* ================================================================== *)


Lemma any_true (l : list str) :
  any l = true <-> exists s, In s l /\ s <> [].
Proof.
  unfold any. rewrite existsb_exists. split; intros (s & Hin & Hs);
    exists s; split; try assumption; now apply truthy_true.
Qed.

Lemma strip_nonblank_nonempty (s : str) : strip s <> [] -> s <> [].
Proof. intros H ->. now apply H. Qed.


(** Whatever the entries are: with one that is not blank the block is
    there. *)
Lemma weak_spots_text_some (l : list str) :
  (exists s, In s l /\ strip s <> []) -> weak_spots_text l = weak_spots_block l.
Proof.
  intros (s & Hin & Hs). unfold weak_spots_text.
  assert (Hany : any l = true).
  { apply any_true. exists s. split; [exact Hin|]. now apply strip_nonblank_nonempty. }
  rewrite Hany. destruct l; [destruct Hin|reflexivity].
Qed.





(** What the endpoint passes on is trimmed. *)
Lemma weak_spots_list_trimmed (raw : str) :
  Forall (fun spot => strip spot = spot) (weak_spots_list raw).
Proof.
  unfold weak_spots_list. destruct (truthy raw); [|constructor].
  apply Forall_forall. intros s Hs. apply in_map_iff in Hs as (s0 & <- & _).
  apply strip_idempotent.
Qed.




Lemma material_config_unknown (key : str) :
  dict_get MATERIAL_TYPES key = None -> material_config key = comprehensive.
Proof. intros H. unfold material_config, get_or. now rewrite H. Qed.

Lemma material_config_comprehensive : material_config (u "comprehensive") = comprehensive.
Proof. now vm_compute. Qed.

(** C9, as the code has it.  For a key that is not in the catalog the
    composer takes the "comprehensive" entry without raising: the prompt
    begins with the opening sentence, the line "MATERIAL TYPE:
    Comprehensive Study Notes" and the line "STYLE INSTRUCTION:" with the
    style directive of that entry, and the whole prompt (and with it the
    result of the generation call) is the one of the key "comprehensive".
    The metadata of the document does not: the endpoint puts the label
    "Study Notes" there, which the metadata block and the page header
    show. *)
Theorem C9_unknown_material_type
    (GOOGLE_API_KEY : option str) (model : str -> str + str)
    (ppt : ppt_content) (spots : list str) (today key dl ai : str) :
  dict_get MATERIAL_TYPES key = None ->
  material_config key = comprehensive
  /\ (exists rest,
        compose_prompt ppt spots key dl ai
        = [c_nl]
          ++ ln "        You are an expert educational content creator. Generate high-quality study material based on the PowerPoint content provided."
          ++ [c_nl]
          ++ u "        MATERIAL TYPE: " ++ u "Comprehensive Study Notes" ++ [c_nl]
          ++ u "        STYLE INSTRUCTION: "
          ++ u "Create extremely detailed and comprehensive notes with thorough explanations, multiple examples, and deep conceptual understanding."
          ++ [c_nl]
          ++ [c_nl]
          ++ u "        DIFFICULTY LEVEL: " ++ dl ++ [c_nl]
          ++ rest)
  /\ compose_prompt ppt spots key dl ai
     = compose_prompt ppt spots (u "comprehensive") dl ai
  /\ compose_prompt ppt spots key dl ai
     = prompt_head comprehensive dl ++ weak_spots_text spots
       ++ prompt_middle ai ppt ++ length_restrictions (weak_spots_text spots)
  /\ generate_targeted_study_material GOOGLE_API_KEY model ppt spots key dl ai
     = generate_targeted_study_material GOOGLE_API_KEY model ppt spots
         (u "comprehensive") dl ai
  /\ (forall k, GOOGLE_API_KEY = Some k -> k <> [] ->
      generate_targeted_study_material GOOGLE_API_KEY model ppt spots key dl ai
      = match model (compose_prompt ppt spots (u "comprehensive") dl ai) with
        | inr text => Ok text
        | inl msg => Raise (HTTPException 500 (u "Failed to generate study material: " ++ msg))
        end)
  /\ md_material_type (endpoint_metadata today key spots dl) = Some (u "Study Notes")
  /\ header_line (endpoint_metadata today key spots dl)
     = u "Study Material - " ++ u "Study Notes"
  /\ (exists focus,
        meta_text today (endpoint_metadata today key spots dl)
        = u "Generated on " ++ today ++ u "<br/>"
          ++ u "Material Type: " ++ u "Study Notes" ++ u "<br/>" ++ focus).
Proof.
  intros Hkey.
  assert (Hprompt : compose_prompt ppt spots key dl ai
                    = compose_prompt ppt spots (u "comprehensive") dl ai).
  { unfold compose_prompt.
    now rewrite (material_config_unknown key Hkey), material_config_comprehensive. }
  split; [now apply material_config_unknown|].
  split.
  { unfold compose_prompt. rewrite (material_config_unknown key Hkey).
    unfold prompt_head.
    change (name comprehensive) with (u "Comprehensive Study Notes").
    change (prompt_modifier comprehensive)
      with (u "Create extremely detailed and comprehensive notes with thorough explanations, multiple examples, and deep conceptual understanding.").
    cbv zeta. rewrite <- !app_assoc. eexists.
    do 11 (apply (f_equal2 (@app char) eq_refl)).
    reflexivity. }
  split; [exact Hprompt|].
  split.
  { unfold compose_prompt. now rewrite (material_config_unknown key Hkey). }
  split.
  { unfold generate_targeted_study_material. now rewrite Hprompt. }
  split.
  { intros k -> Hk. unfold generate_targeted_study_material. rewrite Hprompt.
    destruct k; [contradiction|reflexivity]. }
  unfold endpoint_metadata, header_line, meta_text. cbn [md_material_type md_date md_weak_spots opt_or].
  rewrite Hkey.
  split; [reflexivity|]. split; [reflexivity|].
  eexists. reflexivity.
Qed.

Lemma C9_unknown_material_type_witness :
  dict_get MATERIAL_TYPES (u "flashcards") = None
  /\ material_config (u "flashcards") = comprehensive
  /\ compose_prompt {| total_slides := 0; slides := []; full_text := [] |}
       [] (u "flashcards") (u "beginner") []
     = compose_prompt {| total_slides := 0; slides := []; full_text := [] |}
         [] (u "comprehensive") (u "beginner") []
  /\ md_material_type (endpoint_metadata (u "May 01, 2025") (u "flashcards") [] (u "beginner"))
     = Some (u "Study Notes").
Proof.
  assert (H : dict_get MATERIAL_TYPES (u "flashcards") = None) by now vm_compute.
  split; [exact H|].
  destruct (C9_unknown_material_type None (fun p => inr p)
              {| total_slides := 0; slides := []; full_text := [] |}
              [] (u "May 01, 2025") (u "flashcards") (u "beginner") [] H)
    as (Hc & _ & Hp & _ & _ & _ & Hm & _).
  split; [exact Hc|]. split; [exact Hp | exact Hm].
Defined.

(** C9 as stated fails: for the unknown key "flashcards" the metadata of
    the document carries "Study Notes", not the display name of the
    "comprehensive" entry. *)
Lemma C9_metadata_counterexample :
  dict_get MATERIAL_TYPES (u "flashcards") = None
  /\ md_material_type (endpoint_metadata (u "May 01, 2025") (u "flashcards") [] (u "beginner"))
     = Some (u "Study Notes")
  /\ str_eqb (u "Study Notes") (name comprehensive) = false.
Proof.
  split; [now vm_compute|]. split; now vm_compute.
Qed.

(* ================================================================== *)
(** * The extractor (C2, C5) *)
(* ================================================================== *)

Lemma last_cons {A : Type} (a d : A) (l : list A) : last (a :: l) d = last l a.
Proof.
  revert a d. induction l as [|b l IH]; intros a d; [reflexivity|].
  change (last (a :: b :: l) d) with (last (b :: l) d).
  now rewrite (IH b d), (IH b a).
Qed.

(** The loop over the shapes in closed form. *)
Lemma visit_shapes_fold (slide_num : nat) (sl : Slide) (shs : list Shape) :
  forall st,
    fold_left (visit_shape slide_num sl) shs st
    = {| slide_number := slide_number st;
         title := last (map shape_text
                          (filter (is_title slide_num sl) (filter has_text_frame shs)))
                       (title st);
         content := content st
                    ++ flat_map shape_lines
                         (filter (fun sh => negb (is_title slide_num sl sh))
                                 (filter has_text_frame shs)) |}.
Proof.
  induction shs as [|sh shs IH]; intros st.
  - simpl. rewrite app_nil_r. now destruct st.
  - cbn [fold_left filter]. rewrite IH. unfold visit_shape.
    destruct (has_text_frame sh); cbn [negb]; [|reflexivity].
    cbn [filter]. destruct (is_title slide_num sl sh); cbn [negb map flat_map].
    + cbn [slide_number title content]. now rewrite last_cons.
    + cbn [slide_number title content]. now rewrite <- app_assoc.
Qed.

Lemma is_title_first_slide (sl : Slide) (sh : Shape) : is_title 1 sl sh = true.
Proof. unfold is_title. apply orb_true_r. Qed.

Lemma is_title_later_slide (k : nat) (sl : Slide) (sh : Shape) :
  is_title (S (S k)) sl sh = is_title_placeholder sl sh.
Proof. unfold is_title. apply orb_false_r. Qed.

Lemma filter_all {A : Type} (f : A -> bool) (l : list A) :
  (forall x, f x = true) -> filter f l = l.
Proof. intros H. apply filter_id. intros x _. apply H. Qed.

Lemma filter_none {A : Type} (f : A -> bool) (l : list A) :
  (forall x, f x = false) -> filter f l = [].
Proof.
  intros H. induction l as [|x l IH]; [reflexivity|]. simpl. now rewrite H.
Qed.

Lemma spec_visit_later_slide (k : nat) (sl : Slide) (shs : list Shape) :
  forall seen st,
    spec_visit (S (S k)) sl seen st shs
    = fold_left (visit_shape (S (S k)) sl) shs st.
Proof.
  induction shs as [|sh shs IH]; intros seen st; [reflexivity|].
  cbn [spec_visit fold_left]. unfold visit_shape at 2.
  rewrite is_title_later_slide.
  change (Nat.eqb (S (S k)) 1) with false. cbn [andb]. rewrite orb_false_r.
  destruct (negb (has_text_frame sh)); [apply IH|].
  destruct (is_title_placeholder sl sh); apply IH.
Qed.

(** What line 107 makes of a first slide: every shape with text passes the
    title test, so the last of them gives the title and none gives
    content. *)
Lemma first_slide_closed_form (sl : Slide) :
  extract_slide 1 sl
  = {| slide_number := 1;
       title := last (map shape_text (text_shapes sl)) [];
       content := [] |}.
Proof.
  unfold extract_slide. rewrite visit_shapes_fold. cbn [slide_number title content app].
  fold (text_shapes sl).
  rewrite (filter_all (is_title 1 sl) (text_shapes sl) (is_title_first_slide sl)).
  rewrite (filter_none (fun sh => negb (is_title 1 sl sh)) (text_shapes sl)); [reflexivity|].
  intros sh. now rewrite is_title_first_slide.
Qed.

(** C2 does not hold of the code on the first slide.  The test of line 107
    is true of every shape with text of slide 1, not of the first one only,
    so each of them overwrites the title and none gives content.  On a first
    slide with the title placeholder "Intro" and the text boxes "Point A"
    and "Point B" the code returns the title "Point B" and no content, where
    the rule of C2 gives the title "Intro" and both points as content; the
    same slide in second place is extracted as the rule says.  On a title
    slide whose subtitle is empty the code returns the empty title, and the
    slide, whose title is "Intro" by the rule, is dropped from the deck. *)
Theorem C2_first_slide_title_overwritten :
  extract_slide 1 intro_slide
  = {| slide_number := 1; title := u "Point B"; content := [] |}
  /\ spec_extract_slide 1 intro_slide
     = {| slide_number := 1; title := u "Intro";
          content := [u "Point A"; u "Point B"] |}
  /\ extract_slide 2 intro_slide
     = {| slide_number := 2; title := u "Intro";
          content := [u "Point A"; u "Point B"] |}
  /\ extract_slide 1 title_slide
     = {| slide_number := 1; title := []; content := [] |}
  /\ spec_extract_slide 1 title_slide
     = {| slide_number := 1; title := u "Intro"; content := [] |}
  /\ extract_text_with_structure (inr [title_slide])
     = Ok {| total_slides := 1; slides := []; full_text := [] |}.
Proof.
  split; [now vm_compute|]. split; [now vm_compute|]. split; [now vm_compute|].
  split; [now vm_compute|]. split; now vm_compute.
Qed.

Lemma extract_slides_length (deck : list Slide) :
  forall n, length (extract_slides n deck) <= length deck.
Proof.
  induction deck as [|sl deck IH]; intros n; [apply le_n|].
  cbn [extract_slides length].
  destruct (retained (extract_slide n sl)); cbn [length]; specialize (IH (S n)); lia.
Qed.

Lemma retained_true (st : slide_text) :
  retained st = true -> title st <> [] \/ content st <> [].
Proof.
  unfold retained. intros H. apply orb_true_iff in H as [H | H].
  - left. now apply truthy_true.
  - right. now destruct (content st).
Qed.

Lemma extract_slides_retained (deck : list Slide) :
  forall n, Forall (fun s => title s <> [] \/ content s <> []) (extract_slides n deck).
Proof.
  induction deck as [|sl deck IH]; intros n; [constructor|].
  cbn [extract_slides]. destruct (retained (extract_slide n sl)) eqn:E; [|apply IH].
  constructor; [now apply retained_true | apply IH].
Qed.

(** C5 does not hold of the code on a deck whose only text is white space
    in a title.  The paragraphs of a content shape are trimmed before they
    are tested and kept (line 111), the text of the title is taken as it is
    (line 108) and tested as it is (line 114).  On a deck of a picture
    slide and a slide whose title placeholder holds three spaces, every
    slide is blank, and the code retains the second slide with the title of
    three spaces: the slide list is not empty and [full_text] is not the
    empty string, nor blank for the test of line 466.  The same white space
    in a text box that is not the title leaves nothing. *)
Theorem C5_white_space_title_retained :
  blank_deck white_deck = true
  /\ extract_text_with_structure (inr white_deck)
     = Ok {| total_slides := 2;
             slides := [ {| slide_number := 2; title := u "   "; content := [] |} ];
             full_text := u "Slide 2:    " ++ [c_nl] |}
  /\ truthy (strip (full_text (extract white_deck))) = true
  /\ blank_deck [picture_slide; empty_slide] = true
  /\ extract_text_with_structure (inr [picture_slide; empty_slide])
     = Ok {| total_slides := 2; slides := []; full_text := [] |}.
Proof.
  split; [now vm_compute|]. split; [now vm_compute|]. split; [now vm_compute|].
  split; now vm_compute.
Qed.

(* ================================================================== *)
(** * Line classification (C3) *)
(* ================================================================== *)

Lemma startswith_other (c x : char) (s p : str) :
  x <> c -> startswith (c :: s) (x :: p) = false.
Proof.
  intros H. rewrite startswith_cons.
  now rewrite (proj2 (chr_eqb_neq x c) H).
Qed.

Lemma isdigit_ascii (d : char) : (48 <= d <= 57)%N -> isdigit d = true.
Proof.
  intros [Hlo Hhi]. unfold isdigit, in_ranges. apply existsb_exists.
  exists (48, 57)%N. split; [now left|].
  cbn [fst snd]. apply andb_true_iff. split; now apply N.leb_le.
Qed.

Lemma classify_not_header (c : char) (r : str) :
  c <> c_hash ->
  classify (c :: r)
  = if is_key_point (c :: r) then IsKeyPoint
    else if is_bullet (c :: r) then IsBulletItem
    else if is_numbered (c :: r) then IsNumberedItem
    else IsParagraph.
Proof.
  intros H. unfold classify. cbn [truthy negb].
  change (u "###") with [c_hash; c_hash; c_hash].
  change (u "##") with [c_hash; c_hash].
  change (u "#") with [c_hash].
  rewrite !(startswith_other c c_hash r _ (not_eq_sym H)). reflexivity.
Qed.

Lemma numbered_line (d : char) (rest : str) :
  (48 <= d <= 57)%N ->
  is_key_point (d :: c_dot :: c_space :: rest) = false ->
  classify (d :: c_dot :: c_space :: rest) = IsNumberedItem.
Proof.
  intros Hd Hkey.
  rewrite classify_not_header by (unfold c_hash; lia).
  rewrite Hkey.
  assert (Hb : is_bullet (d :: c_dot :: c_space :: rest) = false).
  { unfold is_bullet.
    change (u "•") with [8226%N]. change (u "-") with [45%N].
    change (u "→") with [8594%N]. change (u "*") with [42%N].
    rewrite !startswith_other by lia. reflexivity. }
  rewrite Hb. unfold is_numbered.
  rewrite (isdigit_ascii d Hd). reflexivity.
Qed.

Lemma bullet_line (rest : str) :
  is_key_point (c_star :: c_space :: rest) = false ->
  classify (c_star :: c_space :: rest) = IsBulletItem.
Proof.
  intros Hkey. rewrite classify_not_header by discriminate.
  rewrite Hkey. unfold is_bullet.
  change (u "*") with [c_star]. rewrite startswith_cons, startswith_nil.
  cbn [length Nat.ltb Nat.leb index_is nth_error].
  rewrite !chr_eqb_refl. cbn [andb]. now rewrite orb_true_r.
Qed.

Lemma emphasis_line (c : char) (rest : str) :
  c <> c_space ->
  is_key_point (c_star :: c :: rest) = false ->
  classify (c_star :: c :: rest) = IsParagraph.
Proof.
  intros Hc Hkey. rewrite classify_not_header by discriminate.
  rewrite Hkey.
  assert (Hb : is_bullet (c_star :: c :: rest) = false).
  { unfold is_bullet.
    change (u "•") with [8226%N]. change (u "-") with [45%N].
    change (u "→") with [8594%N].
    rewrite !startswith_other by discriminate.
    cbn [orb index_is nth_error]. rewrite (proj2 (chr_eqb_neq c c_space) Hc).
    now rewrite !andb_false_r. }
  rewrite Hb. unfold is_numbered.
  change (isdigit c_star) with false. now rewrite andb_false_r.
Qed.

(** C3, as the code has it.  A trimmed line that has neither "key
    takeaway" nor "important:" in it (in any case of the letters) and
    begins with one ASCII digit, a full stop and a space is a NumberedItem:
    the whole line, its markup translated, goes to the story in the bullet
    style and the list state is set.  Such a line that begins with an
    asterisk and a space is a BulletItem, its text being what follows the
    two characters.  Such a line that begins with an asterisk and another
    character than a space is a Paragraph; "*emphasis*" becomes the
    paragraph "<i>emphasis</i>". *)
Theorem C3_line_classes (RL : ReportLab) (story : list flowable) (in_list : bool) :
  (forall raw d rest,
      strip raw = d :: c_dot :: c_space :: rest ->
      (48 <= d <= 57)%N ->
      is_key_point (strip raw) = false ->
      classify (strip raw) = IsNumberedItem
      /\ process_line RL (story, in_list) raw
         = (p <- Paragraph RL (convert_markdown_to_html (strip raw)) BulletText ;;
            Ok (story ++ [p], true)))
  /\ (forall raw rest,
        strip raw = c_star :: c_space :: rest ->
        is_key_point (strip raw) = false ->
        classify (strip raw) = IsBulletItem
        /\ process_line RL (story, in_list) raw
           = (p <- Paragraph RL
                     (u "• " ++ convert_markdown_to_html (strip rest)) BulletText ;;
              Ok (story ++ [p], true)))
  /\ (forall raw c rest,
        strip raw = c_star :: c :: rest ->
        c <> c_space ->
        is_key_point (strip raw) = false ->
        classify (strip raw) = IsParagraph
        /\ (paragraph_error RL (convert_markdown_to_html (strip raw)) NormalText = None ->
            process_line RL (story, in_list) raw
            = Ok (story ++ [FParagraph (convert_markdown_to_html (strip raw)) NormalText],
                  in_list)))
  /\ classify (strip (u "1. Do the thing")) = IsNumberedItem
  /\ classify (strip (u "* floating note")) = IsBulletItem
  /\ classify (strip (u "*emphasis*")) = IsParagraph
  /\ convert_markdown_to_html (strip (u "*emphasis*")) = u "<i>emphasis</i>".
Proof.
  split.
  { intros raw d rest Hline Hd Hkey.
    assert (Hc : classify (strip raw) = IsNumberedItem).
    { rewrite Hline in *. now apply numbered_line. }
    split; [exact Hc|]. unfold process_line. now rewrite Hc. }
  split.
  { intros raw rest Hline Hkey.
    assert (Hc : classify (strip raw) = IsBulletItem).
    { rewrite Hline in *. now apply bullet_line. }
    split; [exact Hc|]. unfold process_line. rewrite Hc.
    unfold bullet_text. rewrite Hline.
    change (u "*") with [c_star]. rewrite startswith_cons, startswith_nil, chr_eqb_refl.
    reflexivity. }
  split.
  { intros raw c rest Hline Hc Hkey.
    assert (Hcl : classify (strip raw) = IsParagraph).
    { rewrite Hline in *. now apply emphasis_line. }
    split; [exact Hcl|]. intros Hok. unfold process_line. rewrite Hcl.
    unfold Paragraph. now rewrite Hok. }
  split; [now vm_compute|]. split; [now vm_compute|].
  split; now vm_compute.
Qed.

Lemma C3_line_classes_witness :
  classify (strip (u "  7. Revise the proof ")) = IsNumberedItem
  /\ process_line RL_accepting ([], false) (u "  7. Revise the proof ")
     = Ok ([FParagraph (u "7. Revise the proof") BulletText], true)
  /\ process_line RL_accepting ([], false) (u "* a **b** c")
     = Ok ([FParagraph (u "• a <b>b</b> c") BulletText], true)
  /\ process_line RL_accepting ([], false) (u "*emphasis*")
     = Ok ([FParagraph (u "<i>emphasis</i>") NormalText], false).
Proof.
  destruct (C3_line_classes RL_accepting [] false) as (Hn & Hb & Hp & _).
  destruct (Hn (u "  7. Revise the proof ") 55%N (u "Revise the proof")) as [Hn1 Hn2];
    [now vm_compute | now vm_compute | now vm_compute |].
  destruct (Hb (u "* a **b** c") (u "a **b** c")) as [_ Hb2];
    [now vm_compute | now vm_compute |].
  destruct (Hp (u "*emphasis*") 101%N (u "mphasis*")) as [_ Hp2];
    [now vm_compute | discriminate | now vm_compute |].
  split; [exact Hn1|]. split; [rewrite Hn2; now vm_compute|].
  split; [rewrite Hb2; now vm_compute|].
  rewrite Hp2; now vm_compute.
Defined.

(** C3 as stated fails: a line that begins with two digits, a full stop
    and a space is a Paragraph, and a line with "important:" or "key
    takeaway" in it is a KeyPoint whatever it begins with. *)
Lemma C3_numbered_counterexample :
  classify (strip (u "10. Do the thing")) = IsParagraph
  /\ classify (strip (u "1. Important: read this")) = IsKeyPoint
  /\ classify (strip (u "* Key takeaway of the day")) = IsKeyPoint.
Proof. split; [now vm_compute|]. split; now vm_compute. Qed.

(* ================================================================== *)
(** * Recovery of a normal-text line (C10) *)
(* ================================================================== *)

Lemma clean_line_strip_markup (line : str) :
  clean_line line = escape (strip_markup line).
Proof.
  unfold clean_line, strip_markup. rewrite !replace_char_delete. f_equal.
  induction line as [|c r IH]; [reflexivity|].
  cbn [filter]. rewrite (N.eqb_sym c_star c : chr_eqb c_star c = chr_eqb c c_star).
  destruct (chr_eqb c c_star); cbn [negb orb filter]; [exact IH|].
  rewrite (N.eqb_sym c_hash c : chr_eqb c_hash c = chr_eqb c c_hash).
  destruct (chr_eqb c c_hash); cbn [negb]; now rewrite IH.
Qed.

Lemma clean_line_markup_free (line : str) : markup_free (clean_line line).
Proof.
  rewrite clean_line_strip_markup. apply escape_markup_free, strip_markup_free.
Qed.

Lemma strip_markup_id (line : str) : markup_free line -> strip_markup line = line.
Proof.
  intros [Hs Hh]. unfold strip_markup. apply filter_id. intros x Hx.
  apply negb_true_iff, orb_false_iff. split; apply chr_eqb_neq; intros ->; tauto.
Qed.

(** On a line without an asterisk or a hash the second attempt is the
    first one again. *)
Lemma clean_line_plain (line : str) :
  markup_free line -> clean_line line = convert_markdown_to_html line.
Proof.
  intros H. rewrite clean_line_strip_markup, (strip_markup_id line H).
  symmetry. apply convert_star_free. exact (proj1 H).
Qed.

Lemma plain_line_not_recovered (RL : ReportLab) (st : loop_state) (raw : str) (e : exn) :
  classify (strip raw) = IsParagraph ->
  markup_free (strip raw) ->
  Paragraph RL (convert_markdown_to_html (strip raw)) NormalText = Raise e ->
  process_line RL st raw = Raise e.
Proof.
  intros Hc Hfree Hfail. unfold process_line. destruct st as [story in_list].
  rewrite Hc, Hfail, (clean_line_plain _ Hfree), Hfail. reflexivity.
Qed.

Lemma process_lines_app (RL : ReportLab) (before rest : list str) :
  forall st,
    process_lines RL st (before ++ rest)
    = (st' <- process_lines RL st before ;; process_lines RL st' rest).
Proof.
  induction before as [|line before IH]; intros st; [reflexivity|].
  cbn [app process_lines]. destruct (process_line RL st line); cbn [bind]; [apply IH | reflexivity].
Qed.

(** The story once the title, the metadata and the lines before a given
    line have been processed. *)
Lemma build_story_from (RL : ReportLab) (today content : str) (md : metadata)
    (t m : flowable) (before rest : list str) (raw : str) (st : loop_state) :
  Paragraph RL (u "Personalized Study Material") CustomTitle = Ok t ->
  Paragraph RL (meta_text today md) Metadata = Ok m ->
  split [c_nl] content = before ++ raw :: rest ->
  process_lines RL ([t; m; Spacer 1 20], false) before = Ok st ->
  build_story RL today content md
  = (st' <- process_lines RL st (raw :: rest) ;; Ok (fst st')).
Proof.
  intros Ht Hm Hsplit Hbefore. unfold build_story.
  rewrite Ht, Hm. cbn [bind]. rewrite Hsplit, process_lines_app, Hbefore. reflexivity.
Qed.

(** C10, as the code has it.  The paragraph of a normal-text line cannot
    be built.  The cleaned text is the line without its asterisks and
    hashes, escaped.  When the paragraph of the cleaned text can be built,
    that line alone is rendered from the cleaned text and the loop goes on
    with the lines that follow, from the story with that paragraph added
    and the list state as it was; the story of the document is built from
    there.  When the paragraph of the cleaned text cannot be built either,
    the exception leaves the line, the loop and, the loop standing outside
    the [try] of line 420, the renderer: no document is made, the fallback
    one included.  For a line without asterisk or hash the cleaned text is
    the text just rejected, so the second case is the one that occurs. *)
Theorem C10_normal_line_recovery (RL : ReportLab) (raw : str) (rest : list str)
    (e : exn) :
  classify (strip raw) = IsParagraph ->
  Paragraph RL (convert_markdown_to_html (strip raw)) NormalText = Raise e ->
  clean_line (strip raw) = escape (strip_markup (strip raw))
  /\ markup_free (clean_line (strip raw))
  /\ (paragraph_error RL (clean_line (strip raw)) NormalText = None ->
      forall story in_list,
        process_line RL (story, in_list) raw
        = Ok (story ++ [FParagraph (clean_line (strip raw)) NormalText], in_list)
        /\ process_lines RL (story, in_list) (raw :: rest)
           = process_lines RL
               (story ++ [FParagraph (clean_line (strip raw)) NormalText], in_list) rest
        /\ (forall today content md t m before,
              Paragraph RL (u "Personalized Study Material") CustomTitle = Ok t ->
              Paragraph RL (meta_text today md) Metadata = Ok m ->
              split [c_nl] content = before ++ raw :: rest ->
              process_lines RL ([t; m; Spacer 1 20], false) before = Ok (story, in_list) ->
              build_story RL today content md
              = (st <- process_lines RL
                         (story ++ [FParagraph (clean_line (strip raw)) NormalText], in_list)
                         rest ;;
                 Ok (fst st))))
  /\ (forall e',
        Paragraph RL (clean_line (strip raw)) NormalText = Raise e' ->
        forall story in_list,
          process_line RL (story, in_list) raw = Raise e'
          /\ process_lines RL (story, in_list) (raw :: rest) = Raise e'
          /\ (forall today content md t m before,
                Paragraph RL (u "Personalized Study Material") CustomTitle = Ok t ->
                Paragraph RL (meta_text today md) Metadata = Ok m ->
                split [c_nl] content = before ++ raw :: rest ->
                process_lines RL ([t; m; Spacer 1 20], false) before = Ok (story, in_list) ->
                build_story RL today content md = Raise e'
                /\ create_professional_pdf RL today content md = Raise e'))
  /\ (markup_free (strip raw) ->
      Paragraph RL (clean_line (strip raw)) NormalText = Raise e).
Proof.
  intros Hc Hfail.
  split; [apply clean_line_strip_markup|].
  split; [apply clean_line_markup_free|].
  split.
  { intros Hclean story in_list.
    assert (Hline : process_line RL (story, in_list) raw
                    = Ok (story ++ [FParagraph (clean_line (strip raw)) NormalText], in_list)).
    { unfold process_line. rewrite Hc, Hfail. unfold Paragraph. now rewrite Hclean. }
    assert (Hloop : process_lines RL (story, in_list) (raw :: rest)
                    = process_lines RL
                        (story ++ [FParagraph (clean_line (strip raw)) NormalText], in_list)
                        rest).
    { cbn [process_lines]. now rewrite Hline. }
    split; [exact Hline|]. split; [exact Hloop|].
    intros today content md t m before Ht Hm Hsplit Hbefore.
    rewrite (build_story_from RL today content md t m before rest raw (story, in_list)
               Ht Hm Hsplit Hbefore).
    now rewrite Hloop. }
  split.
  { intros e' Hclean story in_list.
    assert (Hline : process_line RL (story, in_list) raw = Raise e').
    { unfold process_line. rewrite Hc, Hfail, Hclean. reflexivity. }
    assert (Hloop : process_lines RL (story, in_list) (raw :: rest) = Raise e').
    { cbn [process_lines]. now rewrite Hline. }
    split; [exact Hline|]. split; [exact Hloop|].
    intros today content md t m before Ht Hm Hsplit Hbefore.
    assert (Hstory : build_story RL today content md = Raise e').
    { rewrite (build_story_from RL today content md t m before rest raw (story, in_list)
                 Ht Hm Hsplit Hbefore).
      now rewrite Hloop. }
    split; [exact Hstory|].
    unfold create_professional_pdf. now rewrite Hstory. }
  intros Hfree. now rewrite (clean_line_plain _ Hfree).
Qed.

Lemma C10_normal_line_recovery_witness :
  process_lines (RL_rejecting (u "<i>")) ([], false) [u "a *b* c"; u "next"]
  = Ok ([FParagraph (u "a b c") NormalText; FParagraph (u "next") NormalText], false)
  /\ create_professional_pdf (RL_rejecting (u " c")) (u "May 01, 2025")
       (u "intro" ++ [c_nl] ++ u "a *b* c" ++ [c_nl] ++ u "next") no_metadata
     = Raise (OtherError (u "xml parser error")).
Proof.
  split.
  - destruct (C10_normal_line_recovery (RL_rejecting (u "<i>"))
                (u "a *b* c") [u "next"] (OtherError (u "xml parser error")))
      as (_ & _ & Hok & _); [now vm_compute | now vm_compute |].
    destruct (Hok ltac:(now vm_compute) [] false) as (_ & Hrest & _).
    rewrite Hrest. now vm_compute.
  - destruct (C10_normal_line_recovery (RL_rejecting (u " c"))
                (u "a *b* c") [u "next"] (OtherError (u "xml parser error")))
      as (_ & _ & _ & Hfail & _); [now vm_compute | now vm_compute |].
    destruct (Hfail (OtherError (u "xml parser error")) ltac:(now vm_compute)
                [ FParagraph (u "Personalized Study Material") CustomTitle;
                  FParagraph (u "Generated on May 01, 2025<br/>Material Type: Study Notes<br/>")
                    Metadata;
                  FSpacer 1 20;
                  FParagraph (u "intro") NormalText ]
                false)
      as (_ & _ & Hdoc).
    refine (proj2 (Hdoc (u "May 01, 2025")
                     (u "intro" ++ [c_nl] ++ u "a *b* c" ++ [c_nl] ++ u "next") no_metadata
                     (FParagraph (u "Personalized Study Material") CustomTitle)
                     (FParagraph (u "Generated on May 01, 2025<br/>Material Type: Study Notes<br/>")
                        Metadata)
                     [u "intro"] _ _ _ _)); now vm_compute.
Defined.

(** C10 as stated fails: when the paragraph constructor rejects a line
    that has no asterisk and no hash, the cleaned text is the text it has
    just rejected, and the exception leaves the loop. *)
Lemma C10_plain_line_counterexample :
  classify (strip (u "plain text")) = IsParagraph
  /\ Paragraph (RL_rejecting (u "plain")) (convert_markdown_to_html (strip (u "plain text")))
       NormalText
     = Raise (OtherError (u "xml parser error"))
  /\ clean_line (strip (u "plain text")) = convert_markdown_to_html (strip (u "plain text"))
  /\ process_line (RL_rejecting (u "plain")) ([], false) (u "plain text")
     = Raise (OtherError (u "xml parser error"))
  /\ process_lines (RL_rejecting (u "plain")) ([], false) [u "plain text"; u "next"]
     = Raise (OtherError (u "xml parser error")).
Proof.
  split; [now vm_compute|]. split; [now vm_compute|]. split; [now vm_compute|].
  split; now vm_compute.
Qed.

(* ================================================================== *)
(** * The fallback document (C7) *)
(* ================================================================== *)



Lemma fallback_chunk_cases (RL : ReportLab) (para : str) :
  fallback_chunk RL para = []
  \/ (strip para <> []
      /\ fallback_chunk RL para = [FParagraph (escape (strip para)) NormalText; FSpacer 1 12]).
Proof.
  unfold fallback_chunk, Paragraph, Spacer.
  destruct (truthy (strip para)) eqn:E; [|now left].
  destruct (paragraph_error RL (escape (strip para)) NormalText); [now left|].
  right. split; [now apply truthy_true | reflexivity].
Qed.


(** An exception raised while the blocks are built is not caught. *)
Lemma build_story_error_propagates (RL : ReportLab) (today content : str)
    (md : metadata) (e : exn) :
  build_story RL today content md = Raise e ->
  create_professional_pdf RL today content md = Raise e.
Proof. intros H. unfold create_professional_pdf. now rewrite H. Qed.




(* ================================================================== *)
(** * Page numbers (C8) *)
(* ================================================================== *)

Lemma draw_flowables (fs : list flowable) :
  forall c,
    fold_left (fun c f => draw (DrawFlowable f) c) fs c
    = {| state := {| _pageNumber := _pageNumber (state c);
                     _code := _code (state c) ++ map DrawFlowable fs |};
         _saved_page_states := _saved_page_states c;
         _doc := _doc c |}.
Proof.
  induction fs as [|f fs IH]; intros c.
  - cbn [fold_left map]. rewrite app_nil_r. now destruct c as [[pn code] saved doc].
  - cbn [fold_left map]. rewrite IH. unfold draw. cbn [state _pageNumber _code
      _saved_page_states _doc]. now rewrite <- app_assoc.
Qed.

(** What the numbered canvas holds after the template has drawn [pages]:
    nothing in the document yet, each page saved under its number. *)
Lemma numbered_pages_drawn (md : metadata) (pages : list (list flowable)) :
  forall c,
    _code (state c) = [] ->
    fold_left (draw_page (NumberedCanvas md)) pages c
    = {| state := {| _pageNumber := _pageNumber (state c) + length pages;
                     _code := [] |};
         _saved_page_states :=
           _saved_page_states c ++ numbered_states (_pageNumber (state c)) pages;
         _doc := _doc c |}.
Proof.
  induction pages as [|fs pages IH]; intros c Hc.
  - cbn [fold_left length numbered_states]. rewrite Nat.add_0_r, app_nil_r.
    destruct c as [[pn code] saved doc]. cbn in Hc |- *. now subst.
  - cbn [fold_left]. rewrite IH.
    + unfold draw_page. cbn [showPage NumberedCanvas]. rewrite draw_flowables.
      unfold NumberedCanvas_showPage, _startPage.
      cbn [state _pageNumber _code _saved_page_states _doc length numbered_states].
      rewrite Hc. cbn [app]. rewrite <- app_assoc. cbn [app].
      f_equal. f_equal. lia.
    + unfold draw_page. now cbn.
Qed.

Lemma stamp_pages (md : metadata) (n : nat) (sts : list page_state) :
  forall c,
    _code (state c) = [] ->
    _doc (fold_left (stamp_page md n) sts c) = _doc c ++ map (stamped md n) sts
    /\ _code (state (fold_left (stamp_page md n) sts c)) = [].
Proof.
  induction sts as [|st sts IH]; intros c Hc.
  - cbn [fold_left map]. now rewrite app_nil_r.
  - cbn [fold_left map]. destruct (IH (stamp_page md n c st)) as [Hd Hs]; [reflexivity|].
    split; [|exact Hs]. rewrite Hd.
    unfold stamp_page, draw_page_number, Canvas_showPage, _startPage, draw, stamped.
    cbn [state _pageNumber _code _saved_page_states _doc].
    rewrite <- !app_assoc. reflexivity.
Qed.

Lemma numbered_states_length (pages : list (list flowable)) :
  forall k, length (numbered_states k pages) = length pages.
Proof.
  induction pages as [|fs pages IH]; intros k; [reflexivity|].
  cbn [numbered_states length]. now rewrite IH.
Qed.

Lemma numbered_save (md : metadata) (write : option str) (c : Canvas) :
  _code (state c) = [] ->
  NumberedCanvas_save md write c
  = match write with
    | Some msg => Raise (OtherError msg)
    | None =>
      Ok (_doc c ++ map (stamped md (length (_saved_page_states c)))
                        (_saved_page_states c))
    end.
Proof.
  intros Hc. unfold NumberedCanvas_save.
  destruct (stamp_pages md (length (_saved_page_states c)) (_saved_page_states c) c Hc)
    as [Hd Hs].
  unfold Canvas_save. rewrite Hs. destruct write; [reflexivity|]. now rewrite Hd.
Qed.

(** The document a numbered canvas writes. *)
Lemma numbered_doc_build (RL : ReportLab) (md : metadata) (story : list flowable)
    (doc : pdf) :
  doc_build RL (NumberedCanvas md) story = Ok doc ->
  exists pages,
    layout RL story = inr pages
    /\ doc = map (stamped md (length pages)) (numbered_states 1 pages).
Proof.
  unfold doc_build. destruct (layout RL story) as [msg | pages]; [discriminate|].
  intros H. exists pages. split; [reflexivity|].
  rewrite (numbered_pages_drawn md pages new_canvas eq_refl) in H.
  cbn [save NumberedCanvas] in H.
  rewrite numbered_save in H by reflexivity.
  destruct (write_error RL); [discriminate|].
  injection H as <-.
  cbn [_saved_page_states _doc new_canvas app state _pageNumber].
  now rewrite numbered_states_length.
Qed.

Lemma numbered_states_nth (pages : list (list flowable)) :
  forall k i st,
    nth_error (numbered_states k pages) i = Some st -> _pageNumber st = k + i.
Proof.
  induction pages as [|fs pages IH]; intros k i st H.
  - now destruct i.
  - destruct i as [|i]; cbn [numbered_states nth_error] in H.
    + injection H as <-. cbn. lia.
    + apply IH in H. lia.
Qed.

Lemma header_line_known (today key : str) (spots : list str) (dl : str)
    (entry : material_type_spec) :
  dict_get MATERIAL_TYPES key = Some entry ->
  header_line (endpoint_metadata today key spots dl)
  = u "Study Material - " ++ name entry.
Proof.
  intros H. unfold header_line, endpoint_metadata. cbn [md_material_type opt_or].
  now rewrite H.
Qed.

(** C8, as the code has it.  When the structured document is built (the
    blocks are constructed and the build with the numbered canvas does not
    raise), every page of the document carries the right-aligned footer
    "Page X of Y", X being the number of the page and Y the number of
    pages of the document, and the header line "Study Material - " with
    the material type of the metadata, which is the display name the
    endpoint looked up for a key of the catalog. *)
Theorem C8_page_footers (RL : ReportLab) (today content : str) (md : metadata)
    (story : list flowable) (doc : pdf) :
  build_story RL today content md = Ok story ->
  doc_build RL (NumberedCanvas md) story = Ok doc ->
  create_professional_pdf RL today content md = Ok doc
  /\ (exists pages, layout RL story = inr pages /\ length doc = length pages)
  /\ (forall i page,
        nth_error doc i = Some page ->
        In (DrawRightString 558 54 (footer_text (S i) (length doc))) page
        /\ In (DrawString 54 756 (header_line md)) page)
  /\ (forall x y, footer_text x y = u "Page " ++ str_of_nat x ++ u " of " ++ str_of_nat y)
  /\ (forall key entry spots dl,
        dict_get MATERIAL_TYPES key = Some entry ->
        header_line (endpoint_metadata today key spots dl)
        = u "Study Material - " ++ name entry).
Proof.
  intros Hstory Hbuild.
  split.
  { unfold create_professional_pdf. rewrite Hstory. cbn [bind]. now rewrite Hbuild. }
  destruct (numbered_doc_build RL md story doc Hbuild) as (pages & Hlay & Hdoc).
  assert (Hlen : length doc = length pages).
  { rewrite Hdoc, length_map. apply numbered_states_length. }
  split; [exists pages; now split|].
  split.
  { intros i page Hnth. rewrite Hlen. rewrite Hdoc in Hnth.
    rewrite nth_error_map in Hnth.
    destruct (nth_error (numbered_states 1 pages) i) as [st|] eqn:Est; [|discriminate].
    injection Hnth as <-. apply numbered_states_nth in Est.
    unfold stamped. rewrite Est. cbn [Nat.add].
    split; apply in_or_app; right; cbn [In]; tauto. }
  split; [reflexivity|].
  intros key entry spots dl Hkey. now apply header_line_known.
Qed.

Lemma C8_page_footers_witness :
  create_professional_pdf RL_accepting (u "May 01, 2025") (u "hello")
    (endpoint_metadata (u "May 01, 2025") (u "pointwise") [] (u "beginner"))
  = Ok [[ DrawFlowable (FParagraph (u "Personalized Study Material") CustomTitle);
          DrawFlowable
            (FParagraph
               (u "Generated on May 01, 2025<br/>Material Type: Point-wise Structure<br/>")
               Metadata);
          DrawFlowable (FSpacer 1 20);
          DrawFlowable (FParagraph (u "hello") NormalText);
          SetFont (u "Helvetica") 9;
          SetFillColor (u "grey");
          DrawRightString 558 54 (u "Page 1 of 1");
          DrawString 54 756 (u "Study Material - Point-wise Structure") ]].
Proof.
  pose (md := endpoint_metadata (u "May 01, 2025") (u "pointwise") [] (u "beginner")).
  pose (story :=
          [ FParagraph (u "Personalized Study Material") CustomTitle;
            FParagraph
              (u "Generated on May 01, 2025<br/>Material Type: Point-wise Structure<br/>")
              Metadata;
            FSpacer 1 20;
            FParagraph (u "hello") NormalText ]).
  destruct (C8_page_footers RL_accepting (u "May 01, 2025") (u "hello") md story
              [ map DrawFlowable story
                ++ [ SetFont (u "Helvetica") 9;
                     SetFillColor (u "grey");
                     DrawRightString 558 54 (u "Page 1 of 1");
                     DrawString 54 756 (u "Study Material - Point-wise Structure") ] ])
    as (Hdoc & _); [now vm_compute | now vm_compute |].
  fold md. rewrite Hdoc. now vm_compute.
Defined.

(** C8 as stated fails: when laying the structured document out raises (a
    forced failure here), the document that is written is the fallback
    one, built with the plain canvas, and its page has no footer. *)
Lemma C8_fallback_counterexample :
  create_professional_pdf RL_layout_failing (u "May 01, 2025") (u "hello") no_metadata
  = Ok [[ DrawFlowable (FParagraph (u "Personalized Study Material") CustomTitle);
          DrawFlowable (FSpacer 1 20);
          DrawFlowable (FParagraph (u "hello") NormalText);
          DrawFlowable (FSpacer 1 12) ]]
  /\ existsb is_footer
       [ DrawFlowable (FParagraph (u "Personalized Study Material") CustomTitle);
         DrawFlowable (FSpacer 1 20);
         DrawFlowable (FParagraph (u "hello") NormalText);
         DrawFlowable (FSpacer 1 12) ] = false.
Proof. split; now vm_compute. Qed.

(* ================================================================== *)
(** * Further properties: the inline markup *)
(* ================================================================== *)

Lemma span_not_star_spec (s : str) :
  forall run rest,
    span_not_star s = (run, rest) ->
    s = run ++ rest /\ star_free run /\ starts_with_star rest = negb (match rest with [] => true | _ => false end).
Proof.
  induction s as [|c r IH]; intros run rest H.
  - cbn in H. injection H as <- <-. repeat split. intros [].
  - cbn [span_not_star] in H. destruct (chr_eqb c c_star) eqn:Ec.
    + injection H as <- <-. repeat split; [intros [] | cbn; now rewrite Ec].
    + destruct (span_not_star r) as [run' rest'] eqn:E.
      injection H as <- <-. destruct (IH run' rest' eq_refl) as (Hs & Hf & Hr).
      split; [cbn; now rewrite <- Hs|]. split; [|exact Hr].
      apply star_free_cons. now split.
Qed.

Lemma match_bold_inv (s run : str) :
  match_bold s = Some run ->
  exists post,
    s = c_star :: c_star :: run ++ c_star :: c_star :: post
    /\ run <> [] /\ star_free run.
Proof.
  unfold match_bold. destruct s as [|c1 [|c2 t]]; try discriminate.
  destruct (chr_eqb c1 c_star) eqn:E1; [|discriminate].
  destruct (chr_eqb c2 c_star) eqn:E2; [|discriminate]. cbn [andb].
  destruct (span_not_star t) as [run' after] eqn:E.
  destruct (span_not_star_spec t run' after E) as (Ht & Hf & _).
  destruct run' as [|x run']; [discriminate|].
  destruct after as [|a1 [|a2 post]]; try discriminate.
  destruct (chr_eqb a1 c_star) eqn:E3; [|discriminate].
  destruct (chr_eqb a2 c_star) eqn:E4; [|discriminate]. cbn [andb].
  intros [= <-]. exists post.
  apply chr_eqb_eq in E1, E2, E3, E4. subst. repeat split; [discriminate | exact Hf].
Qed.

Lemma match_italic_inv (prev : option char) (s run : str) :
  match_italic prev s = Some run ->
  exists post,
    s = c_star :: run ++ c_star :: post /\ run <> [] /\ star_free run.
Proof.
  unfold match_italic. destruct s as [|c1 t]; [discriminate|].
  destruct (chr_eqb c1 c_star) eqn:E1; [|discriminate].
  destruct (negb match prev with Some p => chr_eqb p c_star | None => false end);
    [|discriminate]. cbn [andb].
  destruct (span_not_star t) as [run' after] eqn:E.
  destruct (span_not_star_spec t run' after E) as (Ht & Hf & _).
  destruct run' as [|x run']; [discriminate|].
  destruct after as [|a1 post]; [discriminate|].
  destruct (chr_eqb a1 c_star) eqn:E3; [|discriminate]. cbn [andb].
  destruct (negb match post with a2 :: _ => chr_eqb a2 c_star | [] => false end);
    [|discriminate].
  intros [= <-]. exists post.
  apply chr_eqb_eq in E1, E3. subst. repeat split; [discriminate | exact Hf].
Qed.

(** The bold substitution at a match and away from one. *)
Lemma sub_bold_go_match (run post : str) :
  run <> [] -> star_free run ->
  sub_bold_go 0 (c_star :: c_star :: run ++ c_star :: c_star :: post)
  = u "<b>" ++ run ++ u "</b>" ++ sub_bold_go 0 post.
Proof.
  intros Hne Hfree.
  exact (sub_bold_span [] run post (fun H => H) Hne Hfree).
Qed.

Lemma sub_italic_go_match (prev : option char) (run post : str) :
  match_italic prev (c_star :: run ++ c_star :: post) = Some run ->
  sub_italic_go 0 prev (c_star :: run ++ c_star :: post)
  = u "<i>" ++ run ++ u "</i>" ++ sub_italic_go 0 (Some c_star) post.
Proof.
  intros H. rewrite sub_italic_go_cons, H. now rewrite sub_italic_go_skip.
Qed.

(** Text without asterisk is copied by the italic substitution too. *)
Lemma sub_italic_go_prefix (pre rest : str) :
  forall prev,
    star_free pre ->
    exists prev', sub_italic_go 0 prev (pre ++ rest) = pre ++ sub_italic_go 0 prev' rest.
Proof.
  induction pre as [|c r IH]; intros prev H.
  - now exists prev.
  - apply star_free_cons in H as [Hc Hr].
    destruct (IH (Some c) Hr) as [prev' E]. exists prev'.
    cbn [app]. now rewrite sub_italic_go_cons, (match_italic_other prev c _ Hc), E.
Qed.

Lemma no_angle_cons (c : char) (s : str) :
  no_angle (c :: s) <-> (c <> c_lt /\ c <> c_gt) /\ no_angle s.
Proof. unfold no_angle. cbn [In]. intuition congruence. Qed.

Lemma no_angle_app (a b : str) : no_angle (a ++ b) <-> no_angle a /\ no_angle b.
Proof. unfold no_angle. rewrite !in_app_iff. tauto. Qed.

Lemma escape_no_angle (s : str) : no_angle (escape s).
Proof.
  rewrite escape_flat_map.
  assert (H : forall x, In x (flat_map escape_char s) -> x <> c_lt /\ x <> c_gt).
  { intros x Hx. apply in_flat_map in Hx as (c & _ & Hx). revert Hx.
    unfold escape_char.
    destruct (chr_eqb c c_amp) eqn:Ea; [vm_compute; intuition congruence|].
    destruct (chr_eqb c c_gt) eqn:Eg; [vm_compute; intuition congruence|].
    destruct (chr_eqb c c_lt) eqn:El; [vm_compute; intuition congruence|].
    apply chr_eqb_neq in Eg, El. intros [<- | []]. now split. }
  split; intros Hin; apply H in Hin; tauto.
Qed.

(** The bold substitution of text without angle brackets is text with
    bold spans. *)
Lemma sub_bold_markup (n : nat) :
  forall s, length s <= n -> no_angle s -> bold_markup (sub_bold_go 0 s).
Proof.
  induction n as [|n IH]; intros s Hlen Hs.
  - destruct s; [constructor | cbn in Hlen; lia].
  - destruct s as [|c r]; [constructor|].
    destruct (match_bold (c :: r)) as [run|] eqn:E.
    + destruct (match_bold_inv _ _ E) as (post & Hform & Hne & Hfree).
      rewrite Hform in *. rewrite (sub_bold_go_match run post Hne Hfree).
      apply no_angle_cons in Hs as [_ Hs]. apply no_angle_cons in Hs as [_ Hs].
      apply no_angle_app in Hs as [Hrun Hs].
      apply no_angle_cons in Hs as [_ Hs]. apply no_angle_cons in Hs as [_ Hs].
      apply bold_markup_span; try assumption.
      apply IH; [|exact Hs].
      cbn [length] in Hlen. rewrite length_app in Hlen. cbn [length] in Hlen. lia.
    + rewrite sub_bold_go_cons, E.
      apply no_angle_cons in Hs as [[Hl Hg] Hs].
      apply bold_markup_char; try assumption.
      apply IH; [cbn [length] in Hlen; lia | exact Hs].
Qed.

Lemma app_eq_star_split (a : str) :
  forall s run post,
    star_free a -> a ++ s = run ++ c_star :: post ->
    exists run', run = a ++ run' /\ s = run' ++ c_star :: post.
Proof.
  induction a as [|x a IH]; intros s run post Ha H.
  - now exists run.
  - apply star_free_cons in Ha as [Hx Ha].
    destruct run as [|y run].
    + cbn in H. injection H as -> _. now rewrite chr_eqb_refl in Hx.
    + cbn in H. injection H as -> H.
      destruct (IH s run post Ha H) as (run' & -> & Hs).
      now exists run'.
Qed.

(** Text with bold spans is cut at its first asterisk between two spans. *)
Lemma bold_markup_split (s : str) :
  bold_markup s ->
  forall run post,
    s = run ++ c_star :: post -> star_free run ->
    bold_markup run /\ bold_markup post.
Proof.
  induction 1 as [|c s Hl Hg Hs IH|r s Hr Hrf Hs IH]; intros run post E Hfree.
  - now destruct run.
  - destruct run as [|y run].
    + cbn in E. injection E as -> ->. split; [constructor | exact Hs].
    + cbn in E. injection E as -> E.
      apply star_free_cons in Hfree as [_ Hfree].
      destruct (IH run post E Hfree) as [H1 H2].
      split; [now apply bold_markup_char | exact H2].
  - assert (Ha : star_free (u "<b>" ++ r ++ u "</b>")).
    { apply star_free_app. split; [vm_compute; intuition discriminate|].
      apply star_free_app. split; [exact Hrf | vm_compute; intuition discriminate]. }
    assert (E' : (u "<b>" ++ r ++ u "</b>") ++ s = run ++ c_star :: post)
      by (rewrite <- E; now rewrite <- !app_assoc).
    destruct (app_eq_star_split _ s run post Ha E') as (run' & -> & Hs').
    apply star_free_app in Hfree as [_ Hfree].
    destruct (IH run' post Hs' Hfree) as [H1 H2].
    split; [|exact H2]. rewrite <- !app_assoc. now apply bold_markup_span.
Qed.

(** The italic substitution of text with bold spans is well-formed. *)
Lemma sub_italic_markup (n : nat) :
  forall s prev,
    length s <= n -> bold_markup s -> well_formed_markup (sub_italic_go 0 prev s).
Proof.
  induction n as [|n IH]; intros s prev Hlen Hs.
  - destruct s; [constructor | cbn in Hlen; lia].
  - destruct Hs as [|c s Hl Hg Hs|r s Hr Hrf Hs]; [constructor| |].
    + destruct (match_italic prev (c :: s)) as [run|] eqn:E.
      * destruct (match_italic_inv _ _ _ E) as (post & Hform & Hne & Hfree).
        injection Hform as -> ->.
        rewrite (sub_italic_go_match prev run post E).
        destruct (bold_markup_split _ Hs run post eq_refl Hfree) as [H1 H2].
        apply markup_italic; [exact H1|]. apply IH; [|exact H2].
        cbn [length] in Hlen. rewrite length_app in Hlen. cbn [length] in Hlen. lia.
      * rewrite sub_italic_go_cons, E. apply markup_char; try assumption.
        apply IH; [cbn [length] in Hlen; lia | exact Hs].
    + assert (Ha : star_free (u "<b>" ++ r ++ u "</b>")).
      { apply star_free_app. split; [vm_compute; intuition discriminate|].
        apply star_free_app. split; [exact Hrf | vm_compute; intuition discriminate]. }
      destruct (sub_italic_go_prefix (u "<b>" ++ r ++ u "</b>") s prev Ha) as [prev' E].
      rewrite <- !app_assoc in E. rewrite E.
      apply markup_bold; try assumption.
      apply IH; [|exact Hs].
      rewrite !length_app in Hlen. change (length (u "<b>")) with 3 in Hlen. lia.
Qed.

(** Whatever the text, the markup that [convert_markdown_to_html] makes of
    it is well-formed: outside the tags it has no angle bracket, every
    [<b>] is closed by [</b>] and every [<i>] by [</i>], a bold span holds
    plain text, an italic span plain text and bold spans, and no two spans
    cross.  The paragraph parser is never handed an open or a crossed
    tag. *)
Theorem convert_markdown_well_formed (text : str) :
  well_formed_markup (convert_markdown_to_html text).
Proof.
  unfold convert_markdown_to_html, sub_italic, sub_bold.
  apply (sub_italic_markup (length (sub_bold_go 0 (escape text)))); [apply le_n|].
  apply (sub_bold_markup (length (escape text))); [apply le_n|].
  apply escape_no_angle.
Qed.

Lemma escape_char_plain (c : char) :
  c <> c_amp -> c <> c_lt -> c <> c_gt -> escape_char c = [c].
Proof.
  intros Ha Hl Hg. unfold escape_char.
  now rewrite (proj2 (chr_eqb_neq _ _) Ha), (proj2 (chr_eqb_neq _ _) Hg),
    (proj2 (chr_eqb_neq _ _) Hl).
Qed.

(** Text that has no asterisk, ampersand or angle bracket is returned as
    it is. *)
Theorem convert_markdown_plain_text (text : str) :
  (forall c, In c text -> c <> c_star /\ c <> c_amp /\ c <> c_lt /\ c <> c_gt) ->
  convert_markdown_to_html text = text.
Proof.
  intros H. rewrite convert_star_free.
  - rewrite escape_flat_map. induction text as [|c r IH]; [reflexivity|].
    cbn [flat_map]. destruct (H c (or_introl eq_refl)) as (_ & Ha & Hl & Hg).
    rewrite (escape_char_plain c Ha Hl Hg). cbn [app]. f_equal.
    apply IH. intros x Hx. apply H. now right.
  - intros Hin. now destruct (H c_star Hin) as [Hs _].
Qed.

Lemma convert_markdown_plain_text_witness :
  convert_markdown_to_html (u "Ohm's law: V = I x R (1827)") = u "Ohm's law: V = I x R (1827)".
Proof.
  apply convert_markdown_plain_text.
  intros c Hc. vm_compute in Hc.
  repeat (destruct Hc as [<- | Hc]; [repeat split; discriminate|]). destruct Hc.
Defined.

Lemma In_sub_bold_go (s : str) :
  forall k x, In x (sub_bold_go k s) -> In x s \/ In x (u "<b>/i").
Proof.
  induction s as [|c r IH]; intros k x H; [destruct H|].
  destruct k as [|k].
  - rewrite sub_bold_go_cons in H.
    destruct (match_bold (c :: r)) as [run|] eqn:E.
    + destruct (match_bold_inv _ _ E) as (post & Hform & _).
      apply in_app_or in H as [H | H]; [right; revert H; vm_compute; tauto|].
      apply in_app_or in H as [H | H].
      { left. rewrite Hform. right. right. apply in_or_app. now left. }
      apply in_app_or in H as [H | H]; [right; revert H; vm_compute; tauto|].
      apply IH in H as [H | H]; [left; now right | now right].
    + destruct H as [-> | H]; [left; now left|].
      apply IH in H as [H | H]; [left; now right | now right].
  - cbn [sub_bold_go] in H. apply IH in H as [H | H]; [left; now right | now right].
Qed.

Lemma In_sub_italic_go (s : str) :
  forall k prev x, In x (sub_italic_go k prev s) -> In x s \/ In x (u "<b>/i").
Proof.
  induction s as [|c r IH]; intros k prev x H; [destruct H|].
  destruct k as [|k].
  - rewrite sub_italic_go_cons in H.
    destruct (match_italic prev (c :: r)) as [run|] eqn:E.
    + destruct (match_italic_inv _ _ _ E) as (post & Hform & _).
      apply in_app_or in H as [H | H]; [right; revert H; vm_compute; tauto|].
      apply in_app_or in H as [H | H].
      { left. rewrite Hform. right. apply in_or_app. now left. }
      apply in_app_or in H as [H | H]; [right; revert H; vm_compute; tauto|].
      apply IH in H as [H | H]; [left; now right | now right].
    + destruct H as [-> | H]; [left; now left|].
      apply IH in H as [H | H]; [left; now right | now right].
  - cbn [sub_italic_go] in H. apply IH in H as [H | H]; [left; now right | now right].
Qed.

(** The translation adds the characters of its tags and entities only. *)
Lemma In_convert (x : char) (s : str) :
  In x (convert_markdown_to_html s) -> In x s \/ In x (u "&amp;&gt;&lt;<b>/i").
Proof.
  unfold convert_markdown_to_html, sub_italic, sub_bold. intros H.
  apply In_sub_italic_go in H as [H | H]; [|right; revert H; vm_compute; tauto].
  apply In_sub_bold_go in H as [H | H]; [|right; revert H; vm_compute; tauto].
  apply In_escape in H as [H | H]; [now left | right; revert H; vm_compute; tauto].
Qed.

(** A header loses every hash, the ones inside its text too (lines 379,
    382 and 385 replace them all before the text is translated). *)
Theorem header_text_without_hash (line : str) :
  existsb (chr_eqb c_hash) (header_text line) = false.
Proof.
  apply not_true_is_false. intros H.
  apply existsb_exists in H as (x & H & Hx). apply chr_eqb_eq in Hx. subst x.
  unfold header_text in H. apply In_convert in H as [H | H].
  - apply In_strip, In_replace_delete in H as [_ H]. now apply H.
  - revert H. vm_compute. intuition discriminate.
Qed.

(** The test of line 403 is a test of the first two characters: a line
    is numbered exactly when it has three characters or more, a digit
    first and a full stop second.  The second alternative of the test adds
    nothing, no space is asked for after the full stop, and a second digit
    before it is not accepted. *)
Theorem is_numbered_first_two (line : str) :
  is_numbered line = true
  <-> exists d c rest, line = d :: c_dot :: c :: rest /\ isdigit d = true.
Proof.
  unfold is_numbered. split.
  - intros H. destruct line as [|d [|p [|c rest]]]; try discriminate.
    apply andb_true_iff in H as [H Hdot]. apply andb_true_iff in H as [_ Hd].
    assert (Hp : chr_eqb p c_dot = true).
    { apply orb_true_iff in Hdot as [Hdot | Hdot]; [exact Hdot|].
      apply andb_true_iff in Hdot as [_ Hdot]. cbn in Hdot.
      now apply andb_true_iff in Hdot as [Hdot _]. }
    apply chr_eqb_eq in Hp. subst p. now exists d, c, rest.
  - intros (d & c & rest & -> & Hd). rewrite Hd.
    cbn [length Nat.ltb Nat.leb andb index_is nth_error].
    now rewrite chr_eqb_refl.
Qed.

Lemma untag_no_angle (a b : str) :
  no_angle a -> untag_go false (a ++ b) = a ++ untag_go false b.
Proof.
  induction a as [|c a IH]; intros H; [reflexivity|].
  apply no_angle_cons in H as [[Hl _] H]. cbn [app untag_go].
  rewrite (proj2 (chr_eqb_neq _ _) Hl). now rewrite (IH H).
Qed.

Lemma untag_bold_span (run rest : str) :
  no_angle run ->
  untag_go false (u "<b>" ++ run ++ u "</b>" ++ rest) = run ++ untag_go false rest.
Proof.
  intros H. change (untag_go false (run ++ u "</b>" ++ rest) = run ++ untag_go false rest).
  now rewrite (untag_no_angle run _ H).
Qed.

Lemma untag_italic_open (rest : str) :
  untag_go false (u "<i>" ++ rest) = untag_go false rest.
Proof. reflexivity. Qed.

Lemma untag_italic_close (rest : str) :
  untag_go false (u "</i>" ++ rest) = untag_go false rest.
Proof. reflexivity. Qed.

Lemma untag_bold_markup_app (a : str) :
  bold_markup a ->
  forall b, untag_go false (a ++ b) = untag_go false a ++ untag_go false b.
Proof.
  induction 1 as [|c s Hl Hg Hs IH|r s Hr Hrf Hs IH]; intros b; [reflexivity| |].
  - cbn [app untag_go]. rewrite (proj2 (chr_eqb_neq _ _) Hl). cbn [app].
    now rewrite IH.
  - rewrite <- !app_assoc. rewrite !(untag_bold_span r _ Hr), IH.
    now rewrite app_assoc.
Qed.

Lemma without_stars_app (a b : str) :
  without_stars (a ++ b) = without_stars a ++ without_stars b.
Proof. apply filter_app. Qed.

Lemma without_stars_star (s : str) : without_stars (c_star :: s) = without_stars s.
Proof. reflexivity. Qed.

(** The bold substitution keeps the text. *)
Lemma sub_bold_keeps_text (n : nat) :
  forall s,
    length s <= n -> no_angle s ->
    without_stars (untag (sub_bold_go 0 s)) = without_stars s.
Proof.
  unfold untag. induction n as [|n IH]; intros s Hlen Hs.
  - destruct s; [reflexivity | cbn in Hlen; lia].
  - destruct s as [|c r]; [reflexivity|].
    destruct (match_bold (c :: r)) as [run|] eqn:E.
    + destruct (match_bold_inv _ _ E) as (post & Hform & Hne & Hfree).
      rewrite Hform in *. rewrite (sub_bold_go_match run post Hne Hfree).
      apply no_angle_cons in Hs as [_ Hs]. apply no_angle_cons in Hs as [_ Hs].
      apply no_angle_app in Hs as [Hrun Hs].
      apply no_angle_cons in Hs as [_ Hs]. apply no_angle_cons in Hs as [_ Hs].
      rewrite (untag_bold_span run _ Hrun).
      rewrite !without_stars_star, !without_stars_app, !without_stars_star.
      f_equal. apply IH; [|exact Hs].
      cbn [length] in Hlen. rewrite length_app in Hlen. cbn [length] in Hlen. lia.
    + rewrite sub_bold_go_cons, E.
      apply no_angle_cons in Hs as [[Hl Hg] Hs].
      cbn [untag_go]. rewrite (proj2 (chr_eqb_neq _ _) Hl).
      unfold without_stars. cbn [filter].
      fold (without_stars (untag_go false (sub_bold_go 0 r))). fold (without_stars r).
      rewrite (IH r); [reflexivity | cbn [length] in Hlen; lia | exact Hs].
Qed.

(** The italic substitution keeps the text. *)
Lemma sub_italic_keeps_text (n : nat) :
  forall s prev,
    length s <= n -> bold_markup s ->
    without_stars (untag (sub_italic_go 0 prev s)) = without_stars (untag s).
Proof.
  unfold untag. induction n as [|n IH]; intros s prev Hlen Hs.
  - destruct s; [reflexivity | cbn in Hlen; lia].
  - destruct Hs as [|c s Hl Hg Hs|r s Hr Hrf Hs]; [reflexivity| |].
    + destruct (match_italic prev (c :: s)) as [run|] eqn:E.
      * destruct (match_italic_inv _ _ _ E) as (post & Hform & Hne & Hfree).
        injection Hform as -> ->.
        rewrite (sub_italic_go_match prev run post E).
        destruct (bold_markup_split _ Hs run post eq_refl Hfree) as [H1 H2].
        rewrite untag_italic_open.
        rewrite (untag_bold_markup_app run H1), untag_italic_close.
        change (untag_go false (c_star :: run ++ c_star :: post))
          with (c_star :: untag_go false (run ++ c_star :: post)).
        rewrite (untag_bold_markup_app run H1).
        change (untag_go false (c_star :: post)) with (c_star :: untag_go false post).
        rewrite without_stars_star, !without_stars_app, without_stars_star.
        f_equal. apply IH; [|exact H2].
        cbn [length] in Hlen. rewrite length_app in Hlen. cbn [length] in Hlen. lia.
      * rewrite sub_italic_go_cons, E.
        cbn [untag_go]. rewrite (proj2 (chr_eqb_neq _ _) Hl).
        unfold without_stars. cbn [filter].
        fold (without_stars (untag_go false (sub_italic_go 0 (Some c) s))).
        fold (without_stars (untag_go false s)).
        rewrite (IH s (Some c)); [reflexivity | cbn [length] in Hlen; lia | exact Hs].
    + assert (Ha : star_free (u "<b>" ++ r ++ u "</b>")).
      { apply star_free_app. split; [vm_compute; intuition discriminate|].
        apply star_free_app. split; [exact Hrf | vm_compute; intuition discriminate]. }
      destruct (sub_italic_go_prefix (u "<b>" ++ r ++ u "</b>") s prev Ha) as [prev' E].
      rewrite <- !app_assoc in E. rewrite E.
      rewrite !(untag_bold_span r _ Hr), !without_stars_app. f_equal.
      apply IH; [|exact Hs].
      rewrite !length_app in Hlen. change (length (u "<b>")) with 3 in Hlen. lia.
Qed.

(** The translation changes nothing but the markup: once the tags and the
    asterisks are taken away, its result is the escaped text without its
    asterisks.  No character of the text is lost, added or moved. *)
Theorem convert_markdown_keeps_text (text : str) :
  without_stars (untag (convert_markdown_to_html text)) = without_stars (escape text).
Proof.
  unfold convert_markdown_to_html, sub_italic, sub_bold.
  rewrite (sub_italic_keeps_text (length (sub_bold_go 0 (escape text)))).
  - apply (sub_bold_keeps_text (length (escape text))); [apply le_n | apply escape_no_angle].
  - apply le_n.
  - apply (sub_bold_markup (length (escape text))); [apply le_n | apply escape_no_angle].
Qed.

(* ================================================================== *)
(** * Further properties: the story and the document *)
(* ================================================================== *)

Lemma classify_blank (line : str) : classify line = IsBlank <-> line = [].
Proof.
  split; [|now intros ->].
  destruct line as [|c r]; [reflexivity|]. unfold classify. cbn [truthy negb].
  repeat match goal with |- context [if ?b then _ else _] => destruct b end;
    discriminate.
Qed.

Lemma process_blank_line (RL : ReportLab) (story : list flowable) (in_list : bool)
    (raw : str) :
  strip raw = [] ->
  process_line RL (story, in_list) raw
  = Ok (if in_list then (story ++ [FSpacer 1 6], false) else (story, false)).
Proof.
  intros H. unfold process_line. rewrite H. cbn. now destruct in_list.
Qed.

(** Blank lines after a list item add one spacer, however many they are,
    and end the list; blank lines elsewhere add nothing. *)
Theorem blank_lines_collapse (RL : ReportLab) (story : list flowable)
    (blanks rest : list str) :
  Forall (fun line => strip line = []) blanks ->
  process_lines RL (story, false) (blanks ++ rest) = process_lines RL (story, false) rest
  /\ (blanks <> [] ->
      process_lines RL (story, true) (blanks ++ rest)
      = process_lines RL (story ++ [FSpacer 1 6], false) rest).
Proof.
  intros Hall.
  assert (Hfalse : forall st, process_lines RL (st, false) (blanks ++ rest)
                              = process_lines RL (st, false) rest).
  { induction Hall as [|b bs Hb _ IH]; intros st; [reflexivity|].
    cbn [app process_lines]. rewrite (process_blank_line RL st false b Hb).
    cbn [bind]. apply IH. }
  split; [apply Hfalse|].
  intros Hne. destruct Hall as [|b bs Hb Hbs]; [congruence|].
  cbn [app process_lines]. rewrite (process_blank_line RL story true b Hb).
  cbn [bind].
  clear Hne Hfalse. revert story.
  induction Hbs as [|b' bs Hb' _ IH]; intros story; [reflexivity|].
  cbn [app process_lines]. rewrite (process_blank_line RL _ false b' Hb').
  cbn [bind]. apply IH.
Qed.

Lemma blank_lines_collapse_witness :
  process_lines RL_accepting ([], false) [u "- one"; u "  "; []; u " "; u "after"]
  = Ok ([ FParagraph (u "• one") BulletText; FSpacer 1 6;
          FParagraph (u "after") NormalText ], false).
Proof.
  assert (Hall : Forall (fun line => strip line = []) [u "  "; []; u " "])
    by (repeat constructor).
  destruct (blank_lines_collapse RL_accepting [FParagraph (u "• one") BulletText]
              [u "  "; []; u " "] [u "after"] Hall) as [_ H].
  change (process_lines RL_accepting ([], false) [u "- one"; u "  "; []; u " "; u "after"])
    with (process_lines RL_accepting ([FParagraph (u "• one") BulletText], true)
            ([u "  "; []; u " "] ++ [u "after"])).
  rewrite H by discriminate. now vm_compute.
Defined.

Lemma Paragraph_ok (RL : ReportLab) (text : str) (st : style) (p : flowable) :
  Paragraph RL text st = Ok p -> p = FParagraph text st.
Proof.
  unfold Paragraph. destruct (paragraph_error RL text st); [discriminate|].
  now intros [= <-].
Qed.

Lemma paragraph_texts_app (a b : list flowable) :
  paragraph_texts (a ++ b) = paragraph_texts a ++ paragraph_texts b.
Proof. apply flat_map_app. Qed.

(** The class of the line says that it is not blank. *)
Ltac nonblank Ec :=
  match type of Ec with
  | classify (strip ?raw) = _ =>
    let Hne := fresh "Hne" in
    assert (Hne : truthy (strip raw) = true)
      by (destruct (strip raw); [discriminate Ec | reflexivity]);
    rewrite Hne
  end.

(** A branch of the loop body that builds one paragraph. *)
Ltac one_block Ec :=
  nonblank Ec;
  let p := fresh "p" in
  let Ep := fresh "Ep" in
  destruct (Paragraph _ _ _) as [p|] eqn:Ep; [|discriminate];
  cbn [bind]; intros [= <- <-]; apply Paragraph_ok in Ep as ->;
  eexists; now split.

(** A line adds blocks at the end of the story: none or a spacer when it is
    blank, one paragraph when it is not. *)
Lemma process_line_appends (RL : ReportLab) (story story' : list flowable)
    (in_list in_list' : bool) (raw : str) :
  process_line RL (story, in_list) raw = Ok (story', in_list') ->
  exists added,
    story' = story ++ added
    /\ length (paragraph_texts added) = (if truthy (strip raw) then 1 else 0).
Proof.
  unfold process_line.
  destruct (classify (strip raw)) eqn:Ec;
    [ | one_block Ec | one_block Ec | one_block Ec
      | one_block Ec | one_block Ec | one_block Ec | ].
  - apply classify_blank in Ec. rewrite Ec. cbn [truthy].
    destruct in_list; intros [= <- <-].
    + now exists [FSpacer 1 6].
    + exists []. now rewrite app_nil_r.
  - nonblank Ec.
    destruct (Paragraph RL (convert_markdown_to_html (strip raw)) NormalText)
      as [p|] eqn:Ep.
    + intros [= <- <-]. apply Paragraph_ok in Ep as ->. eexists; now split.
    + destruct (Paragraph RL (clean_line (strip raw)) NormalText) as [p|] eqn:Ep2;
        [|discriminate].
      cbn [bind]. intros [= <- <-]. apply Paragraph_ok in Ep2 as ->. eexists; now split.
Qed.

Lemma process_lines_appends (RL : ReportLab) (lines : list str) :
  forall story in_list story' in_list',
    process_lines RL (story, in_list) lines = Ok (story', in_list') ->
    exists added,
      story' = story ++ added
      /\ length (paragraph_texts added)
         = length (filter (fun line => truthy (strip line)) lines).
Proof.
  induction lines as [|raw lines IH]; intros story in_list story' in_list' H.
  - cbn in H. injection H as <- <-. exists []. now rewrite app_nil_r.
  - cbn [process_lines] in H.
    destruct (process_line RL (story, in_list) raw) as [[story1 in_list1]|] eqn:E;
      [|discriminate].
    cbn [bind] in H.
    destruct (process_line_appends RL _ _ _ _ _ E) as (a1 & -> & H1).
    destruct (IH _ _ _ _ H) as (a2 & -> & H2).
    exists (a1 ++ a2). split; [now rewrite app_assoc|].
    rewrite paragraph_texts_app, length_app, H1, H2. cbn [filter].
    now destruct (truthy (strip raw)).
Qed.

(** When the story is built it is the title block, the metadata block, a
    spacer, and then exactly one paragraph for each line of the generated
    text that is not blank: no line is dropped and none gives two
    blocks. *)
Theorem build_story_one_block_per_line (RL : ReportLab) (today content : str)
    (md : metadata) (story : list flowable) :
  build_story RL today content md = Ok story ->
  exists blocks,
    story = [ FParagraph (u "Personalized Study Material") CustomTitle;
              FParagraph (meta_text today md) Metadata;
              FSpacer 1 20 ] ++ blocks
    /\ length (paragraph_texts blocks) = length (nonblank_lines content).
Proof.
  unfold build_story.
  destruct (Paragraph RL (u "Personalized Study Material") CustomTitle) as [t|] eqn:Et;
    [|discriminate].
  cbn [bind].
  destruct (Paragraph RL (meta_text today md) Metadata) as [m|] eqn:Em; [|discriminate].
  cbn [bind].
  destruct (process_lines RL ([t; m; Spacer 1 20], false) (split [c_nl] content))
    as [[story1 in_list1]|] eqn:E; [|discriminate].
  cbn [bind fst]. intros [= <-].
  apply Paragraph_ok in Et as ->. apply Paragraph_ok in Em as ->.
  destruct (process_lines_appends RL _ _ _ _ _ E) as (added & -> & H).
  exists added. split; [reflexivity | exact H].
Qed.

Lemma build_story_one_block_per_line_witness :
  exists blocks,
    [ FParagraph (u "Personalized Study Material") CustomTitle;
      FParagraph (u "Generated on May 01, 2025<br/>Material Type: Study Notes<br/>") Metadata;
      FSpacer 1 20;
      FParagraph (u "Plan") CustomTitle;
      FParagraph (u "• a") BulletText;
      FSpacer 1 6;
      FParagraph (u "text") NormalText ]
    = [ FParagraph (u "Personalized Study Material") CustomTitle;
        FParagraph (meta_text (u "May 01, 2025") no_metadata) Metadata;
        FSpacer 1 20 ] ++ blocks
    /\ length (paragraph_texts blocks)
       = length (nonblank_lines (u "# Plan" ++ [c_nl] ++ u "- a" ++ [c_nl; c_nl] ++ u "text")).
Proof.
  apply (build_story_one_block_per_line RL_accepting (u "May 01, 2025")
           (u "# Plan" ++ [c_nl] ++ u "- a" ++ [c_nl; c_nl] ++ u "text") no_metadata).
  now vm_compute.
Defined.

Lemma numbered_states_nth_page (pages : list (list flowable)) :
  forall k i fs,
    nth_error pages i = Some fs ->
    nth_error (numbered_states k pages) i
    = Some {| _pageNumber := k + i; _code := map DrawFlowable fs |}.
Proof.
  induction pages as [|p pages IH]; intros k i fs H; [now destruct i|].
  destruct i as [|i]; cbn [nth_error numbered_states] in *.
  - injection H as ->. now rewrite Nat.add_0_r.
  - replace (k + S i) with (S k + i) by lia. now apply IH.
Qed.

(** When the story can be laid out and the file written, the numbered
    canvas writes as many pages as were laid out, in their order; each
    page holds what was drawn on it, unchanged, and after it the four
    operations of its stamp, with its own number and the number of pages
    laid out.  Deferring the pages to [save] loses and reorders nothing. *)
Theorem numbered_canvas_keeps_pages (RL : ReportLab) (md : metadata)
    (story : list flowable) (pages : list (list flowable)) :
  layout RL story = inr pages ->
  write_error RL = None ->
  exists doc,
    doc_build RL (NumberedCanvas md) story = Ok doc
    /\ length doc = length pages
    /\ forall i fs,
         nth_error pages i = Some fs ->
         nth_error doc i
         = Some (map DrawFlowable fs ++ page_stamp md (S i) (length pages)).
Proof.
  intros Hlay Hw.
  exists (map (stamped md (length pages)) (numbered_states 1 pages)).
  split.
  { unfold doc_build. rewrite Hlay.
    rewrite (numbered_pages_drawn md pages new_canvas eq_refl).
    cbn [save NumberedCanvas]. rewrite numbered_save by reflexivity. rewrite Hw.
    cbn [_saved_page_states _doc new_canvas app state _pageNumber].
    now rewrite numbered_states_length. }
  split; [now rewrite length_map, numbered_states_length|].
  intros i fs Hi. rewrite nth_error_map.
  now rewrite (numbered_states_nth_page pages 1 i fs Hi).
Qed.

Lemma numbered_canvas_keeps_pages_witness :
  doc_build
    {| paragraph_error := fun _ _ => None;
       layout := fun story => inr (map (fun f => [f]) story);
       write_error := None |}
    (NumberedCanvas no_metadata) [FSpacer 1 20; FSpacer 1 6]
  = Ok [ DrawFlowable (FSpacer 1 20) :: page_stamp no_metadata 1 2;
         DrawFlowable (FSpacer 1 6) :: page_stamp no_metadata 2 2 ].
Proof.
  destruct (numbered_canvas_keeps_pages
              {| paragraph_error := fun _ _ => None;
                 layout := fun story => inr (map (fun f => [f]) story);
                 write_error := None |}
              no_metadata [FSpacer 1 20; FSpacer 1 6]
              [[FSpacer 1 20]; [FSpacer 1 6]] eq_refl eq_refl)
    as (doc & Hdoc & _).
  rewrite Hdoc. revert Hdoc. vm_compute. now intros [= <-].
Defined.

Lemma doc_build_unwritable (RL : ReportLab) (md : metadata) (story : list flowable)
    (msg : str) :
  write_error RL = Some msg ->
  (exists e, doc_build RL (NumberedCanvas md) story = Raise e)
  /\ (exists e, doc_build RL PlainCanvas story = Raise e).
Proof.
  intros Hw. unfold doc_build.
  destruct (layout RL story) as [m | pages]; [split; eexists; reflexivity|].
  split.
  - rewrite (numbered_pages_drawn md pages new_canvas eq_refl).
    cbn [save NumberedCanvas]. rewrite numbered_save by reflexivity. rewrite Hw.
    eexists; reflexivity.
  - cbn [save PlainCanvas]. unfold Canvas_save. rewrite Hw.
    eexists; reflexivity.
Qed.

(** When the file cannot be written no document is returned: the
    structured build raises, the fallback is tried, and its build raises
    too.  The fallback never turns a failure of the sink into a success. *)
Theorem unwritable_file_no_document (RL : ReportLab) (today content : str)
    (md : metadata) (msg : str) :
  write_error RL = Some msg ->
  exists e, create_professional_pdf RL today content md = Raise e.
Proof.
  intros Hw. unfold create_professional_pdf.
  destruct (build_story RL today content md) as [story|e]; [|now exists e].
  cbn [bind].
  destruct (doc_build_unwritable RL md story msg Hw) as [[e He] _]. rewrite He.
  unfold fallback_pdf.
  destruct (Paragraph RL (u "Personalized Study Material") CustomTitle) as [t|e'];
    [|now exists e'].
  cbn [bind]. now destruct (doc_build_unwritable RL md ([t; Spacer 1 20] ++
    flat_map (fallback_chunk RL) (split [c_nl; c_nl] (strip_markup content))) msg Hw)
    as [_ H].
Qed.

Lemma unwritable_file_no_document_witness :
  create_professional_pdf RL_unwritable (u "May 01, 2025") (u "hello") no_metadata
  = Raise (OtherError (u "Permission denied")).
Proof.
  destruct (unwritable_file_no_document RL_unwritable (u "May 01, 2025") (u "hello")
              no_metadata (u "Permission denied") eq_refl) as [e He].
  rewrite He. revert He. vm_compute. now intros [= <-].
Defined.

(* ================================================================== *)
(** * Further properties: the extractor *)
(* ================================================================== *)

Lemma extract_slide_number (n : nat) (sl : Slide) :
  slide_number (extract_slide n sl) = n.
Proof. unfold extract_slide. now rewrite visit_shapes_fold. Qed.

Lemma extract_slides_origin (deck : list Slide) :
  forall n s,
    In s (extract_slides n deck) ->
    n <= slide_number s < n + length deck
    /\ exists sl,
         nth_error deck (slide_number s - n) = Some sl
         /\ s = extract_slide (slide_number s) sl.
Proof.
  induction deck as [|sl deck IH]; intros n s H; [destruct H|].
  cbn [extract_slides] in H.
  assert (Hrest : In s (extract_slides (S n) deck) ->
                  n <= slide_number s < n + length (sl :: deck)
                  /\ exists sl0,
                       nth_error (sl :: deck) (slide_number s - n) = Some sl0
                       /\ s = extract_slide (slide_number s) sl0).
  { intros Hin. destruct (IH (S n) s Hin) as (Hb & sl0 & Hn & Hs).
    split; [cbn [length]; lia|]. exists sl0. split; [|exact Hs].
    replace (slide_number s - n) with (S (slide_number s - S n)) by lia. exact Hn. }
  destruct (retained (extract_slide n sl)); [|now apply Hrest].
  destruct H as [<- | H]; [|now apply Hrest].
  rewrite extract_slide_number. split; [cbn [length]; lia|].
  exists sl. now rewrite Nat.sub_diag.
Qed.

Lemma extract_slides_sorted (deck : list Slide) :
  forall n,
    StronglySorted (fun a b => slide_number a < slide_number b) (extract_slides n deck).
Proof.
  induction deck as [|sl deck IH]; intros n; [constructor|].
  cbn [extract_slides]. destruct (retained (extract_slide n sl)); [|apply IH].
  constructor; [apply IH|]. apply Forall_forall. intros s Hs.
  rewrite extract_slide_number.
  destruct (extract_slides_origin deck (S n) s Hs) as [Hb _]. lia.
Qed.

(** The retained slides keep the numbers they have in the deck: the
    numbers grow strictly along the list, lie between 1 and
    [total_slides], and the record numbered [k] is the extraction of the
    [k]-th slide of the deck.  Dropping blank slides renumbers nothing. *)
Theorem retained_slides_keep_their_numbers (deck : Presentation) :
  StronglySorted (fun a b => slide_number a < slide_number b) (slides (extract deck))
  /\ Forall (fun s =>
               1 <= slide_number s <= total_slides (extract deck)
               /\ exists sl,
                    nth_error deck (slide_number s - 1) = Some sl
                    /\ s = extract_slide (slide_number s) sl)
            (slides (extract deck)).
Proof.
  unfold extract. cbn [slides total_slides]. split; [apply extract_slides_sorted|].
  apply Forall_forall. intros s Hs.
  destruct (extract_slides_origin deck 1 s Hs) as [Hb Hsl].
  split; [lia | exact Hsl].
Qed.

(** Every content line of a retained slide is trimmed and is not empty. *)
Theorem content_lines_are_trimmed (deck : Presentation) :
  Forall (fun s => Forall (fun line => line <> [] /\ strip line = line) (content s))
         (slides (extract deck)).
Proof.
  apply Forall_forall. intros s Hs.
  destruct (extract_slides_origin deck 1 s Hs) as (_ & sl & _ & E).
  rewrite E. unfold extract_slide. rewrite visit_shapes_fold. cbn [content app].
  apply Forall_forall. intros line Hl.
  apply in_flat_map in Hl as (sh & _ & Hl). unfold shape_lines in Hl.
  apply in_map_iff in Hl as (p & <- & Hp). apply filter_In in Hp as [_ Hp].
  split; [now apply truthy_true | apply strip_idempotent].
Qed.

Lemma strip_keeps_first (c : char) (r : str) : isspace c = false -> strip (c :: r) <> [].
Proof.
  intros Hc. unfold strip. rewrite (lstrip_fixed c r Hc).
  destruct (rstrip_head c r Hc) as [r' E]. now rewrite E.
Qed.

Lemma join_first (sep e : str) (es : list str) :
  exists rest, join sep (e :: es) = e ++ rest.
Proof.
  destruct es as [|e' es]; cbn [join].
  - exists []. now rewrite app_nil_r.
  - now eexists.
Qed.

Lemma full_text_first_entry (s : slide_text) (ss : list slide_text) :
  exists rest, join [c_nl] (map slide_entry (s :: ss)) = u "Slide " ++ rest.
Proof.
  destruct (join_first [c_nl] (slide_entry s) (map slide_entry ss)) as [rest E].
  cbn [map]. rewrite E. unfold slide_entry. rewrite <- !app_assoc. now eexists.
Qed.

(** The test of line 466 on the text of a deck. *)
Lemma full_text_not_blank (deck : Presentation) :
  truthy (strip (full_text (extract deck)))
  = match slides (extract deck) with [] => false | _ :: _ => true end.
Proof.
  unfold extract. cbn [slides full_text].
  destruct (extract_slides 1 deck) as [|s ss]; [reflexivity|].
  destruct (full_text_first_entry s ss) as [rest ->].
  apply truthy_true. change (u "Slide ") with (83%N :: u "lide "). cbn [app].
  now apply strip_keeps_first.
Qed.

(** The text of the deck is empty exactly when no slide is retained; with
    a retained slide it begins with "Slide " and is not blank.  So the test
    of line 466 ("PowerPoint appears to be empty") rejects the decks
    without a retained slide and no other. *)
Theorem full_text_empty_iff_no_slide (deck : Presentation) :
  (slides (extract deck) = [] -> full_text (extract deck) = [])
  /\ (slides (extract deck) <> [] ->
      exists rest, full_text (extract deck) = u "Slide " ++ rest)
  /\ (truthy (strip (full_text (extract deck))) = true <-> slides (extract deck) <> []).
Proof.
  split.
  { unfold extract. cbn [slides full_text]. now intros ->. }
  split.
  { unfold extract. cbn [slides full_text].
    destruct (extract_slides 1 deck) as [|s ss]; [congruence|].
    intros _. apply full_text_first_entry. }
  rewrite full_text_not_blank.
  destruct (slides (extract deck)); split; congruence.
Qed.

(** For a deck that parses the extractor returns; [total_slides] is the
    number of slides of the deck, retained or not, so it is at least the
    number of retained slides; and a retained record has a title or a
    content that is not empty. *)
Theorem total_slides_counts_every_slide (deck : Presentation) :
  exists r,
    extract_text_with_structure (inr deck) = Ok r
    /\ total_slides r = length deck
    /\ length (slides r) <= total_slides r
    /\ Forall (fun s => title s <> [] \/ content s <> []) (slides r).
Proof.
  exists (extract deck). split; [reflexivity|]. split; [reflexivity|].
  unfold extract; cbn [slides total_slides].
  split; [apply extract_slides_length | apply extract_slides_retained].
Qed.

(** After the first slide the code follows the title rule of the
    specification: only the title placeholder is taken for the title (the
    empty string when the slide has none), and every other shape with text
    gives its paragraphs that are not blank, trimmed, in the order of the
    shapes. *)
Theorem later_slides_follow_title_rule (k : nat) (sl : Slide) :
  extract_slide (S (S k)) sl = spec_extract_slide (S (S k)) sl
  /\ extract_slide (S (S k)) sl
     = {| slide_number := S (S k);
          title := last (map shape_text
                           (filter (is_title_placeholder sl) (text_shapes sl))) [];
          content := flat_map shape_lines
                       (filter (fun sh => negb (is_title_placeholder sl sh))
                               (text_shapes sl)) |}.
Proof.
  split.
  { unfold extract_slide, spec_extract_slide. symmetry. apply spec_visit_later_slide. }
  unfold extract_slide. rewrite visit_shapes_fold. cbn [slide_number title content app].
  fold (text_shapes sl).
  rewrite (filter_ext (is_title (S (S k)) sl) (is_title_placeholder sl)
             (is_title_later_slide k sl)).
  rewrite (filter_ext (fun sh => negb (is_title (S (S k)) sl sh))
             (fun sh => negb (is_title_placeholder sl sh))); [reflexivity|].
  intros sh. now rewrite is_title_later_slide.
Qed.

Lemma strip_blank (s : str) : strip s = [] <-> forallb isspace s = true.
Proof.
  unfold strip. split.
  - intros H. induction s as [|c r IH]; [reflexivity|].
    cbn [forallb]. cbn [lstrip] in H. destruct (isspace c) eqn:Ec.
    + now apply IH.
    + destruct (rstrip_head c r Ec) as [r' E]. rewrite E in H. discriminate.
  - intros H. induction s as [|c r IH]; [reflexivity|].
    cbn [forallb] in H. apply andb_true_iff in H as [Hc Hr].
    cbn [lstrip]. rewrite Hc. now apply IH.
Qed.

Lemma join_newline_blank (ps : list str) :
  forallb blank_paragraph ps = true -> strip (join [c_nl] ps) = [].
Proof.
  intros H. apply strip_blank.
  induction ps as [|p ps IH]; [reflexivity|].
  cbn [forallb] in H. apply andb_true_iff in H as [Hp Hps].
  apply negb_true_iff, truthy_false, strip_blank in Hp.
  specialize (IH Hps).
  destruct ps as [|q ps]; [exact Hp|].
  change (join [c_nl] (p :: q :: ps)) with (p ++ [c_nl] ++ join [c_nl] (q :: ps)).
  rewrite !forallb_app, Hp, IH. reflexivity.
Qed.

Lemma blank_paragraphs_no_lines (sh : Shape) :
  forallb blank_paragraph (paragraphs sh) = true -> shape_lines sh = [].
Proof.
  unfold shape_lines, blank_paragraph. intros H. rewrite forallb_forall in H.
  induction (paragraphs sh) as [|p ps IH]; [reflexivity|].
  cbn [filter]. rewrite (proj1 (negb_true_iff _) (H p (or_introl eq_refl))).
  apply IH. intros x Hx. apply H. now right.
Qed.

(** On a blank slide no shape gives content, and the title, if any, is
    white space. *)
Lemma blank_slide_record (n : nat) (sl : Slide) :
  blank_slide sl = true ->
  content (extract_slide n sl) = [] /\ strip (title (extract_slide n sl)) = [].
Proof.
  unfold blank_slide. intros H. rewrite forallb_forall in H.
  unfold extract_slide. rewrite visit_shapes_fold. cbn [slide_number title content app].
  fold (text_shapes sl). split.
  - induction (text_shapes sl) as [|sh shs IH]; [reflexivity|].
    cbn [filter]. assert (Hrest : forall x, In x shs ->
                             forallb blank_paragraph (paragraphs x) = true)
      by (intros x Hx; apply H; now right).
    destruct (negb (is_title n sl sh)); [|now apply IH].
    cbn [flat_map]. rewrite (blank_paragraphs_no_lines sh (H sh (or_introl eq_refl))).
    now apply IH.
  - assert (Hall : forall t,
               In t (map shape_text (filter (is_title n sl) (text_shapes sl))) ->
               strip t = []).
    { intros t Ht. apply in_map_iff in Ht as (sh & <- & Hsh).
      apply filter_In in Hsh as [Hsh _]. apply join_newline_blank, H, Hsh. }
    destruct (map shape_text (filter (is_title n sl) (text_shapes sl))) as [|t ts];
      [reflexivity|].
    apply Hall.
    destruct (@exists_last _ (t :: ts) ltac:(discriminate)) as (ts' & t' & ->).
    rewrite last_last. apply in_or_app. right. now left.
Qed.

(** When every slide of a deck is blank, what the extractor retains is
    white space in titles and nothing else: a retained record has no
    content and a title that is not empty and is blank once trimmed.
    Content is trimmed before it is tested, the title is not. *)
Theorem blank_deck_retains_white_titles_only (deck : Presentation) :
  blank_deck deck = true ->
  Forall (fun s => content s = [] /\ title s <> [] /\ strip (title s) = [])
         (slides (extract deck)).
Proof.
  unfold blank_deck, extract. cbn [slides]. intros H. rewrite forallb_forall in H.
  apply Forall_forall. intros s Hs.
  destruct (extract_slides_origin deck 1 s Hs) as (_ & sl & Hnth & E).
  destruct (blank_slide_record (slide_number s) sl (H sl (nth_error_In _ _ Hnth)))
    as [Hc Ht].
  rewrite <- E in Hc, Ht. split; [exact Hc|]. split; [|exact Ht].
  pose proof (extract_slides_retained deck 1) as Hret.
  rewrite Forall_forall in Hret. destruct (Hret s Hs) as [Hn | Hn]; [exact Hn|].
  now rewrite Hc in Hn.
Qed.

Lemma blank_deck_retains_white_titles_only_witness :
  blank_deck white_deck = true
  /\ Forall (fun s => content s = [] /\ title s <> [] /\ strip (title s) = [])
            (slides (extract white_deck))
  /\ slides (extract white_deck)
     = [ {| slide_number := 2; title := u "   "; content := [] |} ].
Proof.
  assert (H : blank_deck white_deck = true) by now vm_compute.
  split; [exact H|].
  split; [exact (blank_deck_retains_white_titles_only white_deck H) | now vm_compute].
Defined.

(* ================================================================== *)
(** * Further properties: the weak-spot field *)
(* ================================================================== *)

Lemma startswith_char (c x : char) (r : str) : startswith (x :: r) [c] = chr_eqb c x.
Proof. now rewrite startswith_cons, startswith_nil, andb_true_r. Qed.

Lemma split_go_char_cons (c x : char) (cur r : str) :
  split_go [c] 0 cur (x :: r)
  = if chr_eqb c x then rev cur :: split_go [c] 0 [] r
    else split_go [c] 0 (x :: cur) r.
Proof. cbn [split_go]. now rewrite startswith_char. Qed.

(** No piece of a split at a character holds that character. *)
Lemma split_go_char_free (c : char) (s : str) :
  forall cur piece,
    ~ In c cur -> In piece (split_go [c] 0 cur s) -> ~ In c piece.
Proof.
  induction s as [|x r IH]; intros cur piece Hcur Hp.
  - cbn in Hp. destruct Hp as [<- | []]. now rewrite <- in_rev.
  - rewrite split_go_char_cons in Hp. destruct (chr_eqb c x) eqn:E.
    + destruct Hp as [<- | Hp]; [now rewrite <- in_rev|].
      apply (IH [] piece); [intros [] | exact Hp].
    + apply (IH (x :: cur) piece); [|exact Hp].
      apply chr_eqb_neq in E. intros [-> | H]; [now apply E | now apply Hcur].
Qed.

Lemma split_go_piece (c : char) (a : str) :
  forall cur rest,
    ~ In c a ->
    split_go [c] 0 cur (a ++ c :: rest) = (rev cur ++ a) :: split_go [c] 0 [] rest.
Proof.
  induction a as [|x a IH]; intros cur rest Ha.
  - cbn [app]. rewrite split_go_char_cons, chr_eqb_refl. now rewrite app_nil_r.
  - cbn [app]. rewrite split_go_char_cons.
    assert (E : chr_eqb c x = false).
    { apply chr_eqb_neq. intros ->. apply Ha. now left. }
    rewrite E, IH by (intros H; apply Ha; now right).
    cbn [rev]. now rewrite <- app_assoc.
Qed.

Lemma split_go_last (c : char) (a : str) :
  forall cur, ~ In c a -> split_go [c] 0 cur a = [rev cur ++ a].
Proof.
  induction a as [|x a IH]; intros cur Ha.
  - cbn. now rewrite app_nil_r.
  - rewrite split_go_char_cons.
    assert (E : chr_eqb c x = false).
    { apply chr_eqb_neq. intros ->. apply Ha. now left. }
    rewrite E, IH by (intros H; apply Ha; now right).
    cbn [rev]. now rewrite <- app_assoc.
Qed.

Lemma split_join_comma (l : list str) :
  forall e p,
    Forall (fun s => ~ In 44%N s) (e :: l) -> ~ In 44%N p ->
    split (u ",") (p ++ join (u ", ") (e :: l)) = (p ++ e) :: map (cons c_space) l.
Proof.
  unfold split. change (u ",") with [44%N].
  induction l as [|e' l IH]; intros e p Hall Hp.
  - cbn [join map]. apply (split_go_last 44%N (p ++ e) []).
    rewrite in_app_iff. inversion Hall; tauto.
  - change (join (u ", ") (e :: e' :: l))
      with (e ++ 44%N :: ([c_space] ++ join (u ", ") (e' :: l))).
    rewrite app_assoc. inversion Hall as [|? ? He Hrest]; subst.
    rewrite (split_go_piece 44%N (p ++ e) [])
      by (rewrite in_app_iff; tauto).
    cbn [rev app map]. f_equal.
    apply (IH e' [c_space] Hrest). vm_compute. intuition discriminate.
Qed.

(** What the endpoint keeps of the weak-spot field: entries that are
    trimmed, not empty and without a comma. *)
Theorem weak_spots_list_entries_clean (raw : str) :
  Forall clean_entry (weak_spots_list raw).
Proof.
  unfold weak_spots_list, clean_entry. destruct (truthy raw); [|constructor].
  apply Forall_forall. intros s Hs. apply in_map_iff in Hs as (p & <- & Hp).
  apply filter_In in Hp as [Hp Hne].
  split; [apply strip_idempotent|]. split; [now apply truthy_true|].
  intros Hin. apply In_strip in Hin. revert Hin.
  apply (split_go_char_free 44%N raw [] p); [intros [] | exact Hp].
Qed.

(** Reading the field undoes the joining with a comma and a space that the
    metadata block and the prompt use: a list of entries that are trimmed,
    not empty and without a comma is read back as it was. *)
Theorem weak_spots_list_of_joined (l : list str) :
  Forall clean_entry l -> weak_spots_list (join (u ", ") l) = l.
Proof.
  intros Hall. destruct l as [|e l]; [reflexivity|].
  unfold weak_spots_list.
  assert (Hne : truthy (join (u ", ") (e :: l)) = true).
  { inversion Hall as [|? ? (_ & He & _) _]; subst.
    destruct (join_first (u ", ") e l) as [rest ->]. destruct e; [congruence | reflexivity]. }
  rewrite Hne.
  assert (Hsplit : split (u ",") (join (u ", ") (e :: l)) = e :: map (cons c_space) l).
  { apply (split_join_comma l e []); [|intros []].
    apply Forall_forall. intros s Hs. rewrite Forall_forall in Hall.
    now destruct (Hall s Hs) as (_ & _ & H). }
  rewrite Hsplit. cbn [filter map].
  inversion Hall as [|? ? (Hs & He & _) Hrest]; subst.
  rewrite Hs, (proj2 (truthy_true e) He). cbn [map]. rewrite Hs. f_equal.
  clear Hall Hne Hsplit Hs He.
  induction Hrest as [|s l (Hs & Hne & _) _ IH]; [reflexivity|].
  cbn [map filter]. change (strip (c_space :: s)) with (strip s).
  rewrite Hs, (proj2 (truthy_true s) Hne). cbn [map].
  change (strip (c_space :: s)) with (strip s). now rewrite Hs, IH.
Qed.

Lemma weak_spots_list_of_joined_witness :
  weak_spots_list (join (u ", ") [u "chain rule"; u "limits"; u "Taylor series"])
  = [u "chain rule"; u "limits"; u "Taylor series"].
Proof.
  apply weak_spots_list_of_joined.
  repeat constructor; try discriminate; vm_compute; intuition discriminate.
Defined.

(** The entries the endpoint keeps are trimmed and not empty. *)
Lemma weak_spots_list_kept (raw : str) :
  Forall (fun spot => strip spot = spot /\ spot <> []) (weak_spots_list raw).
Proof.
  unfold weak_spots_list. destruct (truthy raw); [|constructor].
  apply Forall_forall. intros s Hs. apply in_map_iff in Hs as (p & <- & Hp).
  apply filter_In in Hp as [_ Hne].
  split; [apply strip_idempotent | now apply truthy_true].
Qed.

Lemma kept_entries_filter (l : list str) :
  Forall (fun spot => strip spot = spot /\ spot <> []) l ->
  filter (fun spot => truthy (strip spot)) l = l.
Proof.
  induction 1 as [|s l (Hs & Hne) _ IH]; [reflexivity|].
  cbn [filter]. rewrite Hs, (proj2 (truthy_true s) Hne). now rewrite IH.
Qed.

(** From the field to the prompt: the emphasis block is in the prompt
    exactly when the field has an entry that is not blank, and it lists
    the kept entries, each once and quoted, in the order of the field. *)
Theorem weak_spots_field_in_prompt (raw : str) :
  weak_spots_text (weak_spots_list raw)
  = match weak_spots_list raw with
    | [] => []
    | _ :: _ =>
      weak_spots_heading
      ++ join (u ", ") (map quote_spot (weak_spots_list raw))
      ++ weak_spots_instructions
    end.
Proof.
  pose proof (weak_spots_list_kept raw) as Hall.
  destruct (weak_spots_list raw) as [|e l] eqn:E; [reflexivity|].
  rewrite weak_spots_text_some.
  - unfold weak_spots_block, listed_spots.
    now rewrite (kept_entries_filter (e :: l) Hall).
  - exists e. split; [now left|].
    inversion Hall as [|? ? (Hs & Hne) _]; subst. now rewrite Hs.
Qed.

(* ================================================================== *)
(** * Further properties: the endpoints *)
(* ================================================================== *)

Lemma blank_text_no_slide (deck : Presentation) :
  slides (extract deck) = [] -> truthy (strip (full_text (extract deck))) = false.
Proof.
  intros H. now rewrite full_text_not_blank, H.
Qed.

Section Endpoint.

Variables (RL : ReportLab) (GOOGLE_API_KEY : option str) (model : str -> str + str).
Variables (today filename : str) (parsed : str + Presentation).
Variables (weak_spots material_type difficulty_level additional_instructions : str).

Let response : result pdf :=
  generate_study_material_endpoint RL GOOGLE_API_KEY model today filename parsed
    weak_spots material_type difficulty_level additional_instructions.

(** An upload is refused before anything is generated: a file name that
    does not end in ".pptx" gives the status 400 whatever the file holds,
    a deck that cannot be parsed the status 500, a deck without a retained
    slide the status 400; neither the model nor the renderer has a part in
    these answers. *)
Theorem endpoint_refuses_before_generation :
  (endswith filename (u ".pptx") = false ->
   response = Raise (HTTPException 400 (u "Please upload a .pptx file")))
  /\ (endswith filename (u ".pptx") = true ->
      forall msg,
        parsed = inl msg ->
        response = Raise (HTTPException 500 (u "Failed to process PowerPoint: " ++ msg)))
  /\ (endswith filename (u ".pptx") = true ->
      forall deck,
        parsed = inr deck -> slides (extract deck) = [] ->
        response = Raise (HTTPException 400 (u "PowerPoint appears to be empty"))).
Proof.
  unfold response, generate_study_material_endpoint.
  split; [intros ->; reflexivity|].
  split.
  - intros -> msg ->. reflexivity.
  - intros -> deck -> Hs. cbn [negb extract_text_with_structure bind].
    now rewrite (blank_text_no_slide deck Hs).
Qed.

(** Every failure of the endpoint is an [HTTPException] with the status
    400 or 500: an exception of a library never leaves it as it is. *)
Theorem endpoint_errors_are_http (e : exn) :
  response = Raise e -> http_status e = Some 400 \/ http_status e = Some 500.
Proof.
  unfold response, generate_study_material_endpoint.
  destruct (negb (endswith filename (u ".pptx"))); [intros [= <-]; now left|].
  destruct parsed as [msg | deck]; [intros [= <-]; now right|].
  cbn [extract_text_with_structure bind].
  destruct (negb (truthy (strip (full_text (extract deck))))); [intros [= <-]; now left|].
  destruct (generate_targeted_study_material _ _ _ _ _ _ _); [|intros [= <-]; now right].
  destruct (create_professional_pdf _ _ _ _); [discriminate | intros [= <-]; now right].
Qed.

(** A document is returned only for a ".pptx" upload that parses and has
    a retained slide, with a configured key and a model that answers; it is
    the rendering of the model's answer to the prompt composed from the
    extracted deck and the entries kept of the weak-spot field, under the
    metadata built from the same entries. *)
Theorem endpoint_success_pipeline (doc : pdf) :
  response = Ok doc ->
  endswith filename (u ".pptx") = true
  /\ exists deck key generated_content,
       parsed = inr deck
       /\ slides (extract deck) <> []
       /\ GOOGLE_API_KEY = Some key /\ key <> []
       /\ model (compose_prompt (extract deck) (weak_spots_list weak_spots)
                   material_type difficulty_level additional_instructions)
          = inr generated_content
       /\ create_professional_pdf RL today generated_content
            (endpoint_metadata today material_type (weak_spots_list weak_spots)
               difficulty_level)
          = Ok doc.
Proof.
  unfold response, generate_study_material_endpoint.
  destruct (endswith filename (u ".pptx")); [|discriminate]. cbn [negb].
  destruct parsed as [msg | deck]; [discriminate|].
  cbn [extract_text_with_structure bind].
  destruct (truthy (strip (full_text (extract deck)))) eqn:Et; [|discriminate].
  cbn [negb]. unfold generate_targeted_study_material.
  destruct GOOGLE_API_KEY as [[|k ks]|]; try discriminate.
  destruct (model _) as [msg | text] eqn:Em; [discriminate|].
  destruct (create_professional_pdf _ _ _ _) as [d|] eqn:Ed; [|discriminate].
  intros [= <-]. split; [reflexivity|].
  exists deck, (k :: ks), text.
  rewrite full_text_not_blank in Et.
  repeat split; try assumption; try discriminate.
  intros E. now rewrite E in Et.
Qed.

End Endpoint.

Lemma endpoint_refuses_before_generation_witness :
  generate_study_material_endpoint RL_accepting (Some (u "key")) (fun p => inr p)
    (u "May 01, 2025") (u "deck.pptx")
    (inr [{| shapes := []; shapes_title := None |}; empty_slide])
    (u "limits") (u "pointwise") (u "beginner") []
  = Raise (HTTPException 400 (u "PowerPoint appears to be empty")).
Proof.
  destruct (endpoint_refuses_before_generation RL_accepting (Some (u "key"))
              (fun p => inr p) (u "May 01, 2025") (u "deck.pptx")
              (inr [{| shapes := []; shapes_title := None |}; empty_slide])
              (u "limits") (u "pointwise") (u "beginner") []) as (_ & _ & H).
  refine (H _ [{| shapes := []; shapes_title := None |}; empty_slide] eq_refl _);
    vm_compute; reflexivity.
Defined.

Lemma endpoint_errors_are_http_witness :
  http_status (HTTPException 500 (u "PDF creation failed: Permission denied")) = Some 400
  \/ http_status (HTTPException 500 (u "PDF creation failed: Permission denied")) = Some 500.
Proof.
  apply (endpoint_errors_are_http RL_unwritable (Some (u "key")) (fun p => inr (u "hello"))
           (u "May 01, 2025") (u "deck.pptx") (inr [intro_slide])
           (u "limits") (u "pointwise") (u "beginner") []).
  now vm_compute.
Defined.

Lemma endpoint_success_pipeline_witness :
  endswith (u "deck.pptx") (u ".pptx") = true
  /\ exists deck key generated_content,
       inr [intro_slide] = @inr str Presentation deck
       /\ slides (extract deck) <> []
       /\ Some (u "key") = Some key /\ key <> []
       /\ @inr str str (u "hello") = inr generated_content
       /\ create_professional_pdf RL_accepting (u "May 01, 2025") generated_content
            (endpoint_metadata (u "May 01, 2025") (u "pointwise")
               (weak_spots_list (u "limits")) (u "beginner"))
          = Ok [[ DrawFlowable (FParagraph (u "Personalized Study Material") CustomTitle);
                  DrawFlowable
                    (FParagraph
                       (u "Generated on May 01, 2025<br/>Material Type: Point-wise Structure<br/>Focus Areas: limits")
                       Metadata);
                  DrawFlowable (FSpacer 1 20);
                  DrawFlowable (FParagraph (u "hello") NormalText);
                  SetFont (u "Helvetica") 9;
                  SetFillColor (u "grey");
                  DrawRightString 558 54 (u "Page 1 of 1");
                  DrawString 54 756 (u "Study Material - Point-wise Structure") ]].
Proof.
  apply (endpoint_success_pipeline RL_accepting (Some (u "key")) (fun p => inr (u "hello"))
           (u "May 01, 2025") (u "deck.pptx") (inr [intro_slide])
           (u "limits") (u "pointwise") (u "beginner") []).
  now vm_compute.
Defined.

Lemma In_firstn {A : Type} (n : nat) (l : list A) (x : A) :
  In x (firstn n l) -> In x l.
Proof.
  intros H. rewrite <- (firstn_skipn n l). apply in_or_app. now left.
Qed.

(** What the analysis returns, when it returns: the number of slides of
    the deck; at most ten topics, none empty, each the title of a retained
    slide; and a preview of at most 500 characters that is the beginning
    of the text of the deck. *)
Theorem analyze_ppt_bounds (filename : str) (parsed : str + Presentation)
    (a : ppt_analysis) :
  analyze_ppt filename parsed = Ok a ->
  endswith filename (u ".pptx") = true
  /\ exists deck,
       parsed = inr deck
       /\ analysis_total_slides a = length deck
       /\ length (main_topics a) <= 10
       /\ Forall (fun topic =>
                    topic <> []
                    /\ exists s, In s (slides (extract deck)) /\ title s = topic)
                 (main_topics a)
       /\ length (content_preview a) <= 500
       /\ (exists rest, full_text (extract deck) = content_preview a ++ rest)
       /\ (length (full_text (extract deck)) <= 500 ->
           content_preview a = full_text (extract deck)).
Proof.
  unfold analyze_ppt.
  destruct (endswith filename (u ".pptx")); [|discriminate]. cbn [negb].
  destruct parsed as [msg | deck]; [discriminate|].
  cbn [extract_text_with_structure bind].
  remember (firstn 10 _) as topics eqn:Etopics.
  remember (firstn 500 _) as preview eqn:Epreview.
  intros [= <-].
  split; [reflexivity|]. exists deck.
  cbn [analysis_total_slides main_topics content_preview]. subst topics preview.
  split; [reflexivity|]. split; [reflexivity|].
  split; [apply firstn_le_length|].
  split.
  { apply Forall_forall. intros t Ht. apply In_firstn in Ht.
    apply in_map_iff in Ht as (s & <- & Hs). apply filter_In in Hs as [Hs Ht].
    split; [now apply truthy_true | now exists s]. }
  split; [apply firstn_le_length|].
  split; [exists (skipn 500 (full_text (extract deck))); now rewrite firstn_skipn|].
  intros Hlen. now apply firstn_all2.
Qed.

Lemma analyze_ppt_bounds_witness :
  endswith (u "deck.pptx") (u ".pptx") = true
  /\ exists deck,
       inr [intro_slide; empty_slide] = @inr str Presentation deck
       /\ 2 = length deck
       /\ length [u "Point B"] <= 10
       /\ Forall (fun topic =>
                    topic <> []
                    /\ exists s, In s (slides (extract deck)) /\ title s = topic)
                 [u "Point B"]
       /\ length (u "Slide 1: Point B" ++ [c_nl]) <= 500
       /\ (exists rest, full_text (extract deck) = (u "Slide 1: Point B" ++ [c_nl]) ++ rest)
       /\ (length (full_text (extract deck)) <= 500 ->
           u "Slide 1: Point B" ++ [c_nl] = full_text (extract deck)).
Proof.
  apply (analyze_ppt_bounds (u "deck.pptx") (inr [intro_slide; empty_slide])
           {| analysis_total_slides := 2;
              main_topics := [u "Point B"];
              content_preview := u "Slide 1: Point B" ++ [c_nl] |}).
  now vm_compute.
Defined.

(* ================================================================== *)
(** * Further properties: the list state and the fallback story *)
(* ================================================================== *)

(** The three parts of the statement below for a line that is not blank. *)
Ltac list_state_kept Ec :=
  let H := fresh "H" in
  split; [intros H; rewrite H in Ec; discriminate Ec|];
  split; [intros; congruence|];
  intros; first [congruence | now left | now right].

(** Only a blank line ends a list: after a line that is not blank the list
    state is set if it was set before, whatever the line is (a header, a
    key point and a paragraph leave it as it is, a bullet and a numbered
    item set it); after a blank line it is not set. *)
Theorem list_state_after_line (RL : ReportLab) (story story' : list flowable)
    (in_list in_list' : bool) (raw : str) :
  process_line RL (story, in_list) raw = Ok (story', in_list') ->
  (strip raw = [] -> in_list' = false)
  /\ (strip raw <> [] -> in_list = true -> in_list' = true)
  /\ (in_list' = true -> in_list = false ->
      classify (strip raw) = IsBulletItem \/ classify (strip raw) = IsNumberedItem).
Proof.
  unfold process_line.
  destruct (classify (strip raw)) eqn:Ec.
  - apply classify_blank in Ec.
    destruct in_list; intros [= <- <-]; intuition congruence.
  - destruct (Paragraph RL _ _); [|discriminate]. cbn [bind]. intros [= <- <-].
    list_state_kept Ec.
  - destruct (Paragraph RL _ _); [|discriminate]. cbn [bind]. intros [= <- <-].
    list_state_kept Ec.
  - destruct (Paragraph RL _ _); [|discriminate]. cbn [bind]. intros [= <- <-].
    list_state_kept Ec.
  - destruct (Paragraph RL _ _); [|discriminate]. cbn [bind]. intros [= <- <-].
    list_state_kept Ec.
  - destruct (Paragraph RL _ _); [|discriminate]. cbn [bind]. intros [= <- <-].
    list_state_kept Ec.
  - destruct (Paragraph RL _ _); [|discriminate]. cbn [bind]. intros [= <- <-].
    list_state_kept Ec.
  - destruct (Paragraph RL (convert_markdown_to_html (strip raw)) NormalText).
    + intros [= <- <-]. list_state_kept Ec.
    + destruct (Paragraph RL (clean_line (strip raw)) NormalText); [|discriminate].
      cbn [bind]. intros [= <- <-]. list_state_kept Ec.
Qed.

Lemma list_state_after_line_witness :
  (strip (u "## Part two") = [] -> true = false)
  /\ (strip (u "## Part two") <> [] -> true = true -> true = true)
  /\ (true = true -> true = false ->
      classify (strip (u "## Part two")) = IsBulletItem
      \/ classify (strip (u "## Part two")) = IsNumberedItem).
Proof.
  apply (list_state_after_line RL_accepting [FParagraph (u "• a") BulletText]
           [FParagraph (u "• a") BulletText; FParagraph (u "Part two") SectionHeader]
           true true (u "## Part two")).
  now vm_compute.
Defined.

(** No text of the fallback story has an angle bracket: the fallback
    hands the paragraph parser no tag at all, only escaped text. *)
Theorem fallback_story_without_tags (RL : ReportLab) (content : str) :
  Forall no_angle (paragraph_texts (fallback_story RL content)).
Proof.
  apply Forall_forall. intros t H.
  unfold fallback_story, paragraph_texts in H. rewrite flat_map_app in H.
  apply in_app_or in H as [H | H].
  - cbn [flat_map app In] in H. destruct H as [<- | []].
    split; vm_compute; intuition discriminate.
  - apply in_flat_map in H as (f & Hf & Ht).
    apply in_flat_map in Hf as (para & _ & Hf).
    destruct (fallback_chunk_cases RL para) as [E | [_ E]]; rewrite E in Hf.
    + destruct Hf.
    + destruct Hf as [<- | [<- | []]]; [|destruct Ht].
      destruct Ht as [<- | []]. apply escape_no_angle.
Qed.

Lemma marker_is_bullet (m : char) (rest : str) :
  m = 8226%N \/ m = 45%N \/ m = 8594%N ->
  is_bullet (m :: rest) = true /\ startswith (m :: rest) (u "*") = false.
Proof.
  unfold is_bullet.
  change (u "•") with [8226%N]. change (u "-") with [45%N].
  change (u "→") with [8594%N]. change (u "*") with [42%N].
  rewrite !startswith_char.
  intros [-> | [-> | ->]]; now split.
Qed.

(** A line that begins with a bullet character, a hyphen or an arrow, and
    is no key point, is a BulletItem whatever follows the marker: no space
    is asked for after it, so a rule of hyphens or a negative number at the
    start of a line is rendered as a bullet.  The text of the item is what
    follows the marker, trimmed and translated. *)
Theorem marker_lines_are_bullets (RL : ReportLab) (story : list flowable)
    (in_list : bool) (raw : str) (m : char) (rest : str) :
  strip raw = m :: rest ->
  m = 8226%N \/ m = 45%N \/ m = 8594%N ->
  is_key_point (strip raw) = false ->
  classify (strip raw) = IsBulletItem
  /\ process_line RL (story, in_list) raw
     = (p <- Paragraph RL (u "• " ++ convert_markdown_to_html (strip rest)) BulletText ;;
        Ok (story ++ [p], true)).
Proof.
  intros Hline Hm Hkey.
  destruct (marker_is_bullet m rest Hm) as [Hb Hs].
  assert (Hc : classify (strip raw) = IsBulletItem).
  { rewrite Hline in *. rewrite classify_not_header.
    - now rewrite Hkey, Hb.
    - destruct Hm as [-> | [-> | ->]]; discriminate. }
  split; [exact Hc|].
  unfold process_line. rewrite Hc. unfold bullet_text. now rewrite Hline, Hs.
Qed.

Lemma marker_lines_are_bullets_witness :
  process_lines RL_accepting ([], false) [u "---"; u "-5 degrees"]
  = Ok ([ FParagraph (u "• --") BulletText;
          FParagraph (u "• 5 degrees") BulletText ], true).
Proof.
  destruct (marker_lines_are_bullets RL_accepting [] false (u "---") 45%N (u "--"))
    as [_ H1]; [now vm_compute | now (right; left) | now vm_compute |].
  cbn [process_lines]. rewrite H1. now vm_compute.
Defined.

(** Of the weak spots only the first three reach the metadata block: two
    metadata that differ in the weak spots after the third give the same
    block. *)
Theorem meta_text_first_three_weak_spots (today : str) (md : metadata)
    (ws ws' : list str) :
  firstn 3 ws = firstn 3 ws' ->
  meta_text today
    {| md_date := md_date md; md_material_type := md_material_type md;
       md_weak_spots := Some ws; md_difficulty := md_difficulty md |}
  = meta_text today
      {| md_date := md_date md; md_material_type := md_material_type md;
         md_weak_spots := Some ws'; md_difficulty := md_difficulty md |}.
Proof.
  intros H. unfold meta_text. cbn [md_date md_material_type md_weak_spots].
  destruct ws as [|a ws], ws' as [|a' ws']; try discriminate; [reflexivity|].
  now rewrite H.
Qed.

Lemma meta_text_first_three_weak_spots_witness :
  meta_text (u "May 01, 2025")
    {| md_date := None; md_material_type := None;
       md_weak_spots := Some [u "a"; u "b"; u "c"; u "d"; u "e"];
       md_difficulty := None |}
  = meta_text (u "May 01, 2025")
      {| md_date := None; md_material_type := None;
         md_weak_spots := Some [u "a"; u "b"; u "c"];
         md_difficulty := None |}.
Proof.
  exact (meta_text_first_three_weak_spots (u "May 01, 2025") no_metadata
           [u "a"; u "b"; u "c"; u "d"; u "e"] [u "a"; u "b"; u "c"] eq_refl).
Defined.
